(** * Rate adaptation from receiver feedback (ns-3.18.1, wifi module)

    A shallow embedding of [SbraWifiManager] (sbra-wifi-manager.cc) and of
    the feedback path of [AdhocWifiMac] (adhoc-wifi-mac.cc).

    C++ [double] is IEEE binary64 and is modelled by Rocq's primitive
    floats, so every comparison of the source ([<], [>], [==]) keeps its
    behaviour on NaN, infinities and signed zeros.  Unsigned integers of
    width [w] are [Z] reduced modulo [2^w].  Whatever the two source files
    call but do not define (the PHY's delivery model, [std::pow], the
    accessors of [WifiMode], the base classes) is a [Variable] of the
    enclosing section. *)

From Stdlib Require Import ZArith List Bool String Lia Floats.
Import ListNotations.

Set Warnings "-inexact-float".

(** ** Order facts on binary64 *)

Module Double.

Local Open Scope float_scope.

Ltac sf_cases a b c :=
  destruct a as [[]|[]| |[] ?ma ?ea], b as [[]|[]| |[] ?mb ?eb],
           c as [[]|[]| |[] ?mc ?ec];
  simpl; try congruence.

Ltac sf_lex :=
  repeat match goal with
  | |- context [Z.compare ?x ?y] => destruct (Z.compare_spec x y)
  | H : context [Z.compare ?x ?y] |- _ => destruct (Z.compare_spec x y)
  end;
  try congruence; try lia; subst;
  rewrite ?Pos.compare_cont_spec in *; simpl in *;
  repeat match goal with
  | |- context [Pos.compare ?x ?y] => destruct (Pos.compare_spec x y)
  | H : context [Pos.compare ?x ?y] |- _ => destruct (Pos.compare_spec x y)
  end;
  simpl in *; try congruence; try lia.

Lemma SFltb_trans (a b c : spec_float) :
  SFltb a b = true -> SFltb b c = true -> SFltb a c = true.
Proof. unfold SFltb. sf_cases a b c; sf_lex. Qed.

Lemma SFltb_SFleb_trans (a b c : spec_float) :
  SFltb a b = true -> SFleb b c = true -> SFltb a c = true.
Proof. unfold SFltb, SFleb. sf_cases a b c; sf_lex. Qed.

Lemma SFleb_SFltb_trans (a b c : spec_float) :
  SFleb a b = true -> SFltb b c = true -> SFltb a c = true.
Proof. unfold SFltb, SFleb. sf_cases a b c; sf_lex. Qed.

Lemma SFltb_irrefl (a : spec_float) : SFltb a a = false.
Proof.
  unfold SFltb. destruct a as [[]|[]| |[] m e]; simpl; try reflexivity;
    rewrite Z.compare_refl, Pos.compare_cont_refl; reflexivity.
Qed.

Lemma SFeqb_SFltb_false (a b : spec_float) :
  SFeqb a b = true -> SFltb a b = false.
Proof.
  unfold SFltb, SFeqb.
  destruct (SFcompare a b) as [[]|]; congruence.
Qed.

Lemma SFltb_SFeqb_false (a b : spec_float) :
  SFltb a b = true -> SFeqb b a = false.
Proof.
  unfold SFltb, SFeqb.
  destruct a as [[]|[]| |[] ma ea], b as [[]|[]| |[] mb eb];
    simpl; try congruence; sf_lex.
Qed.

(** The same facts on the primitive type. *)

Lemma ltb_trans (x y z : float) :
  (x <? y) = true -> (y <? z) = true -> (x <? z) = true.
Proof. rewrite !ltb_spec. apply SFltb_trans. Qed.

Lemma ltb_leb_trans (x y z : float) :
  (x <? y) = true -> (y <=? z) = true -> (x <? z) = true.
Proof. rewrite !ltb_spec, leb_spec. apply SFltb_SFleb_trans. Qed.

Lemma leb_ltb_trans (x y z : float) :
  (x <=? y) = true -> (y <? z) = true -> (x <? z) = true.
Proof. rewrite !ltb_spec, leb_spec. apply SFleb_SFltb_trans. Qed.

Lemma ltb_irrefl (x : float) : (x <? x) = false.
Proof. rewrite ltb_spec. apply SFltb_irrefl. Qed.

Lemma leb_not_gtb (x y : float) : (x <=? y) = true -> (y <? x) = false.
Proof.
  intros Hle. destruct (y <? x) eqn:Hlt; [|reflexivity].
  rewrite <- (ltb_irrefl y). symmetry.
  exact (ltb_leb_trans _ _ _ Hlt Hle).
Qed.

Lemma ltb_not_leb (x y : float) : (x <? y) = true -> (y <=? x) = false.
Proof.
  intros Hlt. destruct (y <=? x) eqn:Hle; [|reflexivity].
  rewrite (leb_not_gtb _ _ Hle) in Hlt. discriminate.
Qed.

Lemma eqb_not_ltb (x y : float) : (x =? y) = true -> (x <? y) = false.
Proof. rewrite eqb_spec, ltb_spec. apply SFeqb_SFltb_false. Qed.

Lemma ltb_not_eqb (x y : float) : (x <? y) = true -> (x =? y) = false.
Proof.
  intros Hlt. destruct (x =? y) eqn:He; [|reflexivity].
  rewrite (eqb_not_ltb _ _ He) in Hlt. discriminate.
Qed.

Lemma gtb_not_eqb (x y : float) : (x <? y) = true -> (y =? x) = false.
Proof. rewrite eqb_spec, ltb_spec. apply SFltb_SFeqb_false. Qed.

(** [(double) z] for an unsigned integer [z]: round to nearest, ties to
    even (what [of_uint63] is specified to do, at any magnitude). *)
Definition of_Z (z : Z) : float :=
  SF2Prim (binary_normalize prec emax z 0 false).

(** [(int) x] and [(uint32_t) x]: truncation toward zero.  The conversion
    is undefined in C++ for NaN, infinities and values out of range; the
    model returns [0] on the first two and the exact integer otherwise. *)
Definition to_Z (x : float) : Z :=
  match Prim2SF x with
  | S754_finite s m e =>
      let v := if (0 <=? e)%Z then (Zpos m * 2 ^ e)%Z
               else (Zpos m / 2 ^ (- e))%Z in
      if s then (- v)%Z else v
  | _ => 0%Z
  end.

(** A value that is a number: neither NaN nor an infinity. *)
Definition is_number (x : float) : bool :=
  match Prim2SF x with
  | S754_zero _ | S754_finite _ _ _ => true
  | _ => false
  end.

End Double.

(** ** Outcomes

    [NS_ASSERT] stops the simulation when its condition is false, so an
    operation that can reach one returns an [outcome]. *)

Inductive outcome (A : Type) : Type :=
| Done (a : A)
| AssertFailed.

Arguments Done {A} a.
Arguments AssertFailed {A}.

Definition bind {A B : Type} (c : outcome A) (k : A -> outcome B) : outcome B :=
  match c with
  | Done a => k a
  | AssertFailed => AssertFailed
  end.

Notation "x <- c ;; k" := (bind c (fun x => k))
  (at level 61, c at next level, right associativity).

(** Reduction modulo [2^w] of an unsigned integer. *)
Definition wrap (w : Z) (z : Z) : Z := z mod 2 ^ w.

(** ** Shared data *)

(** [Mac48Address]: six octets, compared octet-wise by [==]. *)
Definition Mac48Address : Type := Z.

(** [WifiMode] is a handle on a registered mode, built from the mode's
    unique name ([WifiMode ("OfdmRate6Mbps")]) and compared by identity. *)
Definition WifiMode : Type := string.

Inductive WifiCodeRate : Type :=
| WIFI_CODE_RATE_UNDEFINED
| WIFI_CODE_RATE_3_4
| WIFI_CODE_RATE_2_3
| WIFI_CODE_RATE_1_2
| WIFI_CODE_RATE_5_6.

Definition WifiCodeRate_eqb (a b : WifiCodeRate) : bool :=
  match a, b with
  | WIFI_CODE_RATE_UNDEFINED, WIFI_CODE_RATE_UNDEFINED
  | WIFI_CODE_RATE_3_4, WIFI_CODE_RATE_3_4
  | WIFI_CODE_RATE_2_3, WIFI_CODE_RATE_2_3
  | WIFI_CODE_RATE_1_2, WIFI_CODE_RATE_1_2
  | WIFI_CODE_RATE_5_6, WIFI_CODE_RATE_5_6 => true
  | _, _ => false
  end.

(** [struct rxInfo]: what a feedback frame carries. *)
Record rxInfo : Type := mkRxInfo {
  Rssi : float;
  Snr : float;
  LossPacket : Z;
  TotalPacket : Z
}.

(** [struct StaInfo]: one entry of [m_infos]. *)
Record StaInfo : Type := mkStaInfo {
  addr : Mac48Address;
  info : rxInfo
}.

(** ** SbraWifiManager *)

Module Sbra.

Local Open Scope float_scope.

(** [struct SbraWifiRemoteStation : WifiRemoteStation]: the base part is
    opaque to this class, [m_lastSnr] is what it adds. *)
Record SbraWifiRemoteStation (WifiRemoteStation : Type) : Type := mkStation {
  base : WifiRemoteStation;
  m_lastSnr : float
}.

Arguments mkStation {WifiRemoteStation} base m_lastSnr.
Arguments base {WifiRemoteStation} s.
Arguments m_lastSnr {WifiRemoteStation} s.

(** [WifiTxVector], with the arguments in the order of its constructor. *)
Record WifiTxVector : Type := mkTxVector {
  txMode : WifiMode;
  txPowerLevel : Z;
  txRetries : Z;
  txShortGuardInterval : bool;
  txNss : Z;
  txNess : Z;
  txStbc : bool
}.

(** The manager: the members of [SbraWifiManager] and, of its base class
    [WifiRemoteStationManager], the basic rate set and the default mode. *)
Record SbraWifiManager : Type := mkManager {
  m_bssBasicRateSet : list WifiMode;
  m_defaultTxMode : WifiMode;
  m_thresholds : list (float * WifiMode);
  m_ber : float;
  m_per : float;
  m_type : Z;
  m_addBasicMode : bool;
  m_infos : list StaInfo;
  m_minSnr : float;
  m_GroupTxMode : WifiMode;
  m_GroupTxMcs : Z;
  m_num : Z;
  m_sum_min_snr : float;
  m_sum_tx_mode : float;
  m_sum_tx_mcs : float
}.

Definition set_basic (s : SbraWifiManager) (l : list WifiMode) (b : bool) :=
  mkManager l (m_defaultTxMode s) (m_thresholds s) (m_ber s) (m_per s)
    (m_type s) b (m_infos s) (m_minSnr s) (m_GroupTxMode s)
    (m_GroupTxMcs s) (m_num s) (m_sum_min_snr s) (m_sum_tx_mode s)
    (m_sum_tx_mcs s).

Definition set_thresholds (s : SbraWifiManager) (t : list (float * WifiMode)) :=
  mkManager (m_bssBasicRateSet s) (m_defaultTxMode s) t (m_ber s) (m_per s)
    (m_type s) (m_addBasicMode s) (m_infos s) (m_minSnr s) (m_GroupTxMode s)
    (m_GroupTxMcs s) (m_num s) (m_sum_min_snr s) (m_sum_tx_mode s)
    (m_sum_tx_mcs s).

Definition set_infos (s : SbraWifiManager) (l : list StaInfo) :=
  mkManager (m_bssBasicRateSet s) (m_defaultTxMode s) (m_thresholds s)
    (m_ber s) (m_per s) (m_type s) (m_addBasicMode s) l (m_minSnr s)
    (m_GroupTxMode s) (m_GroupTxMcs s) (m_num s) (m_sum_min_snr s)
    (m_sum_tx_mode s) (m_sum_tx_mcs s).

Definition set_minSnr (s : SbraWifiManager) (x : float) :=
  mkManager (m_bssBasicRateSet s) (m_defaultTxMode s) (m_thresholds s)
    (m_ber s) (m_per s) (m_type s) (m_addBasicMode s) (m_infos s) x
    (m_GroupTxMode s) (m_GroupTxMcs s) (m_num s) (m_sum_min_snr s)
    (m_sum_tx_mode s) (m_sum_tx_mcs s).

Definition set_sum_min_snr (s : SbraWifiManager) (x : float) :=
  mkManager (m_bssBasicRateSet s) (m_defaultTxMode s) (m_thresholds s)
    (m_ber s) (m_per s) (m_type s) (m_addBasicMode s) (m_infos s)
    (m_minSnr s) (m_GroupTxMode s) (m_GroupTxMcs s) (m_num s) x
    (m_sum_tx_mode s) (m_sum_tx_mcs s).

Definition set_GroupTxMode (s : SbraWifiManager) (m : WifiMode) :=
  mkManager (m_bssBasicRateSet s) (m_defaultTxMode s) (m_thresholds s)
    (m_ber s) (m_per s) (m_type s) (m_addBasicMode s) (m_infos s)
    (m_minSnr s) m (m_GroupTxMcs s) (m_num s) (m_sum_min_snr s)
    (m_sum_tx_mode s) (m_sum_tx_mcs s).

Definition set_stats (s : SbraWifiManager) (mcs num : Z) (mode_sum mcs_sum : float) :=
  mkManager (m_bssBasicRateSet s) (m_defaultTxMode s) (m_thresholds s)
    (m_ber s) (m_per s) (m_type s) (m_addBasicMode s) (m_infos s)
    (m_minSnr s) (m_GroupTxMode s) mcs num (m_sum_min_snr s)
    mode_sum mcs_sum.

(** *** Feedback ingestion *)

(** The scan of [UpdateInfo]: the first entry whose address is [a] takes
    [i]; the result tells whether one was found ([exist]). *)
Fixpoint overwrite (a : Mac48Address) (i : rxInfo) (l : list StaInfo)
  : bool * list StaInfo :=
  match l with
  | [] => (false, [])
  | e :: l' =>
      if (addr e =? a)%Z then (true, mkStaInfo (addr e) i :: l')
      else let (exist, r) := overwrite a i l' in (exist, e :: r)
  end.

Section UpdateInfo.

(** The local [StaInfo stainfo;] is default-initialised: its address is
    set next, its [info] member is whatever the declaration leaves there,
    which does not depend on the arguments of the call. *)
Variable stainfo_info : rxInfo.

Definition UpdateInfo_infos (a : Mac48Address) (i : rxInfo) (l : list StaInfo)
  : list StaInfo :=
  let (exist, r) := overwrite a i l in
  if exist then r else r ++ [mkStaInfo a stainfo_info].

Definition UpdateInfo (a : Mac48Address) (i : rxInfo) (s : SbraWifiManager)
  : SbraWifiManager :=
  set_infos s (UpdateInfo_infos a i (m_infos s)).

End UpdateInfo.

(** *** A fixture

    Concrete collaborators to run the engine on: the eight OFDM modes the
    class registers, a delivery model, an integer power and the
    registration of the base class. *)

Module Fixture.

Local Open Scope string_scope.
Local Open Scope float_scope.

Definition modes : list (WifiMode * (Z * Z * WifiCodeRate)) :=
  [ ("OfdmRate6Mbps", (6000000, 12000000, WIFI_CODE_RATE_1_2));
    ("OfdmRate9Mbps", (9000000, 12000000, WIFI_CODE_RATE_3_4));
    ("OfdmRate12Mbps", (12000000, 24000000, WIFI_CODE_RATE_1_2));
    ("OfdmRate18Mbps", (18000000, 24000000, WIFI_CODE_RATE_3_4));
    ("OfdmRate24Mbps", (24000000, 48000000, WIFI_CODE_RATE_1_2));
    ("OfdmRate36Mbps", (36000000, 48000000, WIFI_CODE_RATE_3_4));
    ("OfdmRate48Mbps", (48000000, 72000000, WIFI_CODE_RATE_2_3));
    ("OfdmRate54Mbps", (54000000, 72000000, WIFI_CODE_RATE_3_4)) ]%Z.

Fixpoint lookup (m : WifiMode) (t : list (WifiMode * (Z * Z * WifiCodeRate)))
  : Z * Z * WifiCodeRate :=
  match t with
  | [] => (0%Z, 0%Z, WIFI_CODE_RATE_UNDEFINED)
  | (n, d) :: t' => if String.eqb m n then d else lookup m t'
  end.

Definition data_rate (m : WifiMode) : Z := fst (fst (lookup m modes)).
Definition phy_rate (m : WifiMode) : Z := snd (fst (lookup m modes)).
Definition code_rate (m : WifiMode) : WifiCodeRate := snd (lookup m modes).

(** A delivery model: a mode of [r] Mb/s delivers nothing below a linear
    SNR of [r], and above it loses a frame with probability [r * 1e-5],
    so faster modes lose more. *)
Definition pdr (mode : WifiMode) (snr : float) (nbits : Z) : float :=
  let r := Double.of_Z (data_rate mode) * 0.000001 in
  if r <=? snr then 1 - r * 0.00001 else 0.

(** The power of an integer exponent (the exponent is truncated); it
    agrees with [std::pow] on the values used below, [10^0 = 1] and
    [10^2 = 100]. *)
Definition pow_int (b e : float) : float :=
  let n := Double.to_Z e in
  if (0 <=? n)%Z then Z.iter n (fun x => x * b) 1
  else 1 / Z.iter (- n) (fun x => x * b) 1.

(** Registration in the basic rate set: a mode already there is not
    added again. *)
Definition add_basic_mode (l : list WifiMode) (m : WifiMode) : list WifiMode :=
  if existsb (String.eqb m) l then l else (l ++ [m])%list.

Definition sample (a : Mac48Address) (rssi : float) : StaInfo :=
  mkStaInfo a (mkRxInfo rssi 0 0 0).

Definition peer : Mac48Address := 1%Z.

(** A manager after [SetupPhy]: the default mode is the only basic mode,
    every mode has a threshold, no sample has come in. *)
Definition manager (type : Z) : SbraWifiManager :=
  mkManager ["OfdmRate6Mbps"] "OfdmRate6Mbps"
    [ (2, "OfdmRate6Mbps"); (5, "OfdmRate9Mbps"); (9, "OfdmRate12Mbps");
      (11, "OfdmRate18Mbps"); (15, "OfdmRate24Mbps"); (18, "OfdmRate36Mbps");
      (22, "OfdmRate48Mbps"); (25, "OfdmRate54Mbps") ]
    0.00001 0.001 type false [] 0 "OfdmRate6Mbps" 0 0 0 0 0.

Definition manager_with (type : Z) (l : list StaInfo) : SbraWifiManager :=
  set_infos (manager type) l.

(** One peer reporting 20 dB, and one reporting 0 dB. *)
Definition good_channel (type : Z) : SbraWifiManager :=
  manager_with type [sample peer 20].

Definition poor_channel (type : Z) : SbraWifiManager :=
  manager_with type [sample peer 0].

(** What a default-initialised [rxInfo] holds in the runs below, and a
    feedback sample. *)
Definition blank : rxInfo := mkRxInfo 0 0 0 0.

Definition report_20dB : rxInfo := mkRxInfo 20 15 1 10.

Definition thresholds (m : WifiMode) : float :=
  Double.of_Z (match data_rate m with
               | 6000000 => 2 | 9000000 => 5 | 12000000 => 9
               | 18000000 => 11 | 24000000 => 15 | 36000000 => 18
               | 48000000 => 22 | 54000000 => 25 | _ => 0
               end%Z).

(** A PHY whose thresholds do not depend on the error rate, and a base
    class that makes the first mode of the PHY the default mode and the
    only basic mode. *)
Definition calculate_snr (mode : WifiMode) (ber : float) : float :=
  thresholds mode.

Definition base_setup_phy (phy : list WifiMode)
  (b : list WifiMode * WifiMode) : list WifiMode * WifiMode :=
  match phy with
  | [] => b
  | m :: _ => ([m], m)
  end.

(** A manager before [SetupPhy]. *)
Definition unset : SbraWifiManager :=
  mkManager [] "" [] 0.00001 0.001 0 false [] 0 "" 0 0 0 0 0.

End Fixture.

(** *** The engine *)

Section Engine.

(** What the class uses and the two source files do not define. *)

(** [WifiMode::GetDataRate], [GetPhyRate] (both [uint64_t], bit/s) and
    [GetCodeRate]. *)
Variable GetDataRate : WifiMode -> Z.
Variable GetPhyRate : WifiMode -> Z.
Variable GetCodeRate : WifiMode -> WifiCodeRate.

(** [WifiPhy::CalculatePdr (mode, snr, nbits)], the delivery model. *)
Variable CalculatePdr : WifiMode -> float -> Z -> float.

(** [std::pow]. *)
Variable pow : float -> float -> float.

(** [WifiRemoteStationManager::AddBasicMode], as a function of the basic
    rate set it extends. *)
Variable AddBasicMode : list WifiMode -> WifiMode -> list WifiMode.

(** The base of a station record and what the base class reads from it
    or from its own configuration to fill a [WifiTxVector]. *)
Variable WifiRemoteStation : Type.
Variable GetDefaultTxPowerLevel : Z.
Variable GetShortRetryCount : WifiRemoteStation -> Z.
Variable GetLongRetryCount : WifiRemoteStation -> Z.
Variable GetShortGuardInterval : WifiRemoteStation -> bool.
Variable GetNumberOfReceiveAntennas : WifiRemoteStation -> Z.
Variable GetNumberOfTransmitAntennas : Z.
Variable GetNumberOfTransmitAntennasOf : WifiRemoteStation -> Z.
Variable GetStbc : WifiRemoteStation -> bool.
Variable GetSupportedModes : WifiRemoteStation -> list WifiMode.

Let Station := SbraWifiRemoteStation WifiRemoteStation.

(** *** Report handlers *)

Definition DoCreateStation (b : WifiRemoteStation) : Station :=
  mkStation b 0.

Definition DoReportRxOk (st : Station) (rxSnr : float) (txMode : WifiMode)
  : Station := st.

Definition DoReportRtsFailed (st : Station) : Station := st.

Definition DoReportDataFailed (st : Station) : Station := st.

Definition DoReportRtsOk (st : Station) (ctsSnr : float) (ctsMode : WifiMode)
  (rtsSnr : float) : Station :=
  mkStation (base st) rtsSnr.

Definition DoReportDataOk (st : Station) (ackSnr : float) (ackMode : WifiMode)
  (dataSnr : float) : Station :=
  mkStation (base st) dataSnr.

Definition DoReportFinalRtsFailed (st : Station) : Station := st.

Definition DoReportFinalDataFailed (st : Station) : Station := st.

(** The reports the base class can deliver about one station. *)
Inductive report : Type :=
| RxOk (rxSnr : float) (txMode : WifiMode)
| RtsFailed
| DataFailed
| RtsOk (ctsSnr : float) (ctsMode : WifiMode) (rtsSnr : float)
| DataOk (ackSnr : float) (ackMode : WifiMode) (dataSnr : float)
| FinalRtsFailed
| FinalDataFailed.

Definition deliver (st : Station) (r : report) : Station :=
  match r with
  | RxOk rxSnr txMode => DoReportRxOk st rxSnr txMode
  | RtsFailed => DoReportRtsFailed st
  | DataFailed => DoReportDataFailed st
  | RtsOk ctsSnr ctsMode rtsSnr => DoReportRtsOk st ctsSnr ctsMode rtsSnr
  | DataOk ackSnr ackMode dataSnr => DoReportDataOk st ackSnr ackMode dataSnr
  | FinalRtsFailed => DoReportFinalRtsFailed st
  | FinalDataFailed => DoReportFinalDataFailed st
  end.

(** The SNR a report of success carries for the frame that was sent. *)
Definition observed (r : report) : option float :=
  match r with
  | RtsOk _ _ rtsSnr => Some rtsSnr
  | DataOk _ _ dataSnr => Some dataSnr
  | _ => None
  end.

(** The SNR of the last report of success of a sequence, if any. *)
Fixpoint last_observed (rs : list report) (d : float) : float :=
  match rs with
  | [] => d
  | r :: rs' =>
      last_observed rs' (match observed r with Some x => x | None => d end)
  end.

(** *** Selection *)

(** [#define Min(a,b) ((a < b) ? a : b)] *)
Definition Min (a b : Z) : Z := if (a <? b)%Z then a else b.

(** The basic rate set is the catalog: [GetNBasicModes] is its length and
    [GetBasicMode (i)] its [i]-th entry, with [NS_ASSERT (i < size)].  A
    loop [for (k = 0; k < GetNBasicModes (); k++)] over [GetBasicMode (k)]
    therefore visits the entries of the list in order. *)
Definition GetNBasicModes (s : SbraWifiManager) : nat :=
  List.length (m_bssBasicRateSet s).

Definition GetBasicMode (s : SbraWifiManager) (i : nat) : outcome WifiMode :=
  match nth_error (m_bssBasicRateSet s) i with
  | Some m => Done m
  | None => AssertFailed
  end.

Definition GetDefaultMode (s : SbraWifiManager) : WifiMode :=
  m_defaultTxMode s.

Definition AddModeSnrThreshold (s : SbraWifiManager) (mode : WifiMode)
  (snr : float) : SbraWifiManager :=
  set_thresholds s (m_thresholds s ++ [(snr, mode)]).

Fixpoint find_threshold (t : list (float * WifiMode)) (mode : WifiMode)
  : outcome float :=
  match t with
  | [] => AssertFailed
  | (thr, m) :: t' =>
      if String.eqb mode m then Done thr else find_threshold t' mode
  end.

Definition GetSnrThreshold (s : SbraWifiManager) (mode : WifiMode)
  : outcome float :=
  find_threshold (m_thresholds s) mode.

Definition OfdmRates : list WifiMode :=
  [ "OfdmRate6Mbps"; "OfdmRate9Mbps"; "OfdmRate12Mbps"; "OfdmRate18Mbps";
    "OfdmRate24Mbps"; "OfdmRate36Mbps"; "OfdmRate48Mbps"; "OfdmRate54Mbps" ]%string.

Definition AddOfdmRate (s : SbraWifiManager) : SbraWifiManager :=
  set_basic s (fold_left AddBasicMode OfdmRates (m_bssBasicRateSet s)) true.

(** The catalog a recomputation works on: [AddOfdmRate] runs first unless
    it has run before. *)
Definition populated (s : SbraWifiManager) : SbraWifiManager :=
  if m_addBasicMode s then s else AddOfdmRate s.

(** The minimum of the [Rssi] members, from the first entry on. *)
Definition min_rssi (first : StaInfo) (l : list StaInfo) : float :=
  fold_left (fun m e => if Rssi (info e) <? m then Rssi (info e) else m)
            l (Rssi (info first)).

(** Bits of the test frame of the PER branch for one mode. *)
Definition test_frame_bits (mode : WifiMode) : Z :=
  let coderate :=
    if WifiCodeRate_eqb (GetCodeRate mode) WIFI_CODE_RATE_3_4 then 3.0 / 4.0
    else if WifiCodeRate_eqb (GetCodeRate mode) WIFI_CODE_RATE_2_3 then 2.0 / 3.0
    else if WifiCodeRate_eqb (GetCodeRate mode) WIFI_CODE_RATE_1_2 then 1.0 / 2.0
    else if WifiCodeRate_eqb (GetCodeRate mode) WIFI_CODE_RATE_5_6 then 5.0 / 6.0
    else 1.0 in
  let ofdmbits :=
    if (GetPhyRate mode =? 12000000)%Z then 48%Z
    else if (GetPhyRate mode =? 24000000)%Z then 96%Z
    else if (GetPhyRate mode =? 48000000)%Z then 192%Z
    else if (GetPhyRate mode =? 72000000)%Z then 288%Z
    else 48%Z in
  let databits := 1000%Z in
  let nSymbols :=
    Double.of_Z (wrap 32 ((databits + 64) * 8 + 22)) / coderate
      / Double.of_Z ofdmbits in
  wrap 32 ((wrap 32 (Double.to_Z nSymbols) + 1) * ofdmbits).

(** Loss probability of the test frame at [snr]. *)
Definition loss (snr : float) (mode : WifiMode) : float :=
  1 - CalculatePdr mode snr (test_frame_bits mode).

(** One turn of the loop of the PER branch on [(m_GroupTxMode, Per)]. *)
Definition PerStep (snr per : float) (acc : WifiMode * float)
  (mode : WifiMode) : WifiMode * float :=
  let tempPer := loss snr mode in
  if tempPer <? per then (mode, tempPer) else acc.

Definition PerLoop (snr per : float) (modes : list WifiMode)
  (acc : WifiMode * float) : WifiMode * float :=
  fold_left (PerStep snr per) modes acc.

(** The [switch] on the data rate in Mb/s. *)
Definition mcs_of_rate (tmpGroupTxMode : Z) (old : Z) : Z :=
  match tmpGroupTxMode with
  | 6 => 0
  | 9 => 1
  | 12 => 2
  | 18 => 3
  | 24 => 4
  | 36 => 5
  | 48 => 6
  | 54 => 7
  | _ => old
  end%Z.

(** Expected throughput of the 1086-byte test frame, in Mb/s. *)
Definition PdrRate (snr : float) (mode : WifiMode) : float :=
  CalculatePdr mode snr (1086 * 8) * Double.of_Z (GetDataRate mode) * 0.000001.

(** One turn of the loop of the throughput branch on
    [(m_GroupTxMode, maxPdrRate)]. *)
Definition ThroughputStep (snr : float) (acc : WifiMode * float)
  (mode : WifiMode) : WifiMode * float :=
  if snd acc <? PdrRate snr mode then (mode, PdrRate snr mode) else acc.

Definition ThroughputLoop (snr : float) (modes : list WifiMode)
  (acc : WifiMode * float) : WifiMode * float :=
  fold_left (ThroughputStep snr) modes acc.

(** The linear value [GroupRateAdaptation] leaves in [m_minSnr]. *)
Definition linear_min_snr (first : StaInfo) (l : list StaInfo) : float :=
  pow 10.0 (min_rssi first l / 10.0).

(** [vsize] is the size of [m_infos]; the branches on [m_type] are the
    two named blocks of the source, each a loop over the catalog followed
    by its fall-back. *)
Definition GroupRateAdaptation (s0 : SbraWifiManager)
  : outcome (WifiMode * SbraWifiManager) :=
  let s := populated s0 in
  match m_infos s with
  | [] =>
      m0 <- GetBasicMode s 0 ;;
      Done (m0, set_GroupTxMode s m0)
  | first :: _ =>
      let dB := min_rssi first (m_infos s) in
      let s := set_sum_min_snr (set_minSnr s dB) (m_sum_min_snr s + dB) in
      let s := set_minSnr s (pow 10.0 (m_minSnr s / 10.0)) in
      if 1.0 <? m_minSnr s then
        if (m_type s =? 0)%Z then
          let '(mode, Per) :=
            PerLoop (m_minSnr s) (m_per s) (m_bssBasicRateSet s)
                    (m_GroupTxMode s, 1) in
          mode <- (if 1 <? Per then Done mode
                   else if Per =? 1 then GetBasicMode s 0
                   else Done mode) ;;
          let s := set_GroupTxMode s mode in
          let tmpGroupTxMode :=
            Double.to_Z (Double.of_Z (GetDataRate mode) * 0.000001) in
          let mcs := mcs_of_rate tmpGroupTxMode (m_GroupTxMcs s) in
          let s :=
            set_stats s mcs (wrap 32 (m_num s + 1))
              (m_sum_tx_mode s + Double.of_Z (GetDataRate mode) * 0.000001)
              (m_sum_tx_mcs s + Double.of_Z mcs) in
          Done (m_GroupTxMode s, s)
        else if (m_type s =? 1)%Z then
          let '(mode, maxPdrRate) :=
            ThroughputLoop (m_minSnr s) (m_bssBasicRateSet s)
                           (m_GroupTxMode s, 0.0) in
          mode <- (if maxPdrRate =? 0 then GetBasicMode s 0 else Done mode) ;;
          let s := set_GroupTxMode s mode in
          Done (m_GroupTxMode s, s)
        else Done (m_GroupTxMode s, s)
      else
        m0 <- GetBasicMode s 0 ;;
        Done (m0, set_GroupTxMode s m0)
  end.

Definition DoGroupRateAdaptation (s : SbraWifiManager)
  : outcome (WifiMode * SbraWifiManager) :=
  GroupRateAdaptation s.

(** One turn of the loop of [DoGetDataTxVector] on [(maxMode, maxFdrRate)]. *)
Definition DataStep (lastSnr : float) (acc : WifiMode * float)
  (mode : WifiMode) : WifiMode * float :=
  let FdrRate := CalculatePdr mode lastSnr (1086 * 8)
                 * Double.of_Z (GetDataRate mode) in
  if snd acc <? FdrRate then (mode, FdrRate) else acc.

Definition DoGetDataTxVector (s : SbraWifiManager) (st : Station)
  (size : Z) : WifiTxVector :=
  let lastSnr := m_lastSnr st in
  let '(maxMode, _) :=
    fold_left (DataStep lastSnr) (GetSupportedModes (base st))
              (GetDefaultMode s, 0.0) in
  mkTxVector maxMode GetDefaultTxPowerLevel (GetLongRetryCount (base st))
    (GetShortGuardInterval (base st))
    (Min (GetNumberOfReceiveAntennas (base st)) GetNumberOfTransmitAntennas)
    (GetNumberOfTransmitAntennasOf (base st)) (GetStbc (base st)).

(** The loop of [DoGetRtsTxVector] on [(maxMode, maxThreshold)]; a mode
    without a registered threshold stops it at the assertion of
    [GetSnrThreshold]. *)
Fixpoint RtsLoop (s : SbraWifiManager) (lastSnr : float)
  (modes : list WifiMode) (acc : WifiMode * float)
  : outcome (WifiMode * float) :=
  match modes with
  | [] => Done acc
  | mode :: modes' =>
      threshold <- GetSnrThreshold s mode ;;
      RtsLoop s lastSnr modes'
        (if (snd acc <? threshold) && (threshold <? lastSnr)
         then (mode, threshold) else acc)
  end.

Definition DoGetRtsTxVector (s : SbraWifiManager) (st : Station)
  : outcome WifiTxVector :=
  r <- RtsLoop s (m_lastSnr st) (m_bssBasicRateSet s) (GetDefaultMode s, 0.0) ;;
  Done (mkTxVector (fst r) GetDefaultTxPowerLevel
          (GetShortRetryCount (base st)) (GetShortGuardInterval (base st))
          (Min (GetNumberOfReceiveAntennas (base st)) GetNumberOfTransmitAntennas)
          (GetNumberOfTransmitAntennasOf (base st)) (GetStbc (base st))).

(** [GetAvgMinSnrDb], [GetAvgTxMode], [GetAvgTxMcs]. *)
Definition GetAvgMinSnrDb (s : SbraWifiManager) : float :=
  m_sum_min_snr s / Double.of_Z (m_num s).

Definition GetAvgTxMode (s : SbraWifiManager) : float :=
  m_sum_tx_mode s / Double.of_Z (m_num s).

Definition GetAvgTxMcs (s : SbraWifiManager) : float :=
  m_sum_tx_mcs s / Double.of_Z (m_num s).

(** [SbraWifiManager ()]: the flag cleared, the counters at zero. *)
Definition construct (s : SbraWifiManager) : SbraWifiManager :=
  set_stats (set_sum_min_snr (set_basic s (m_bssBasicRateSet s) false) 0)
    (m_GroupTxMcs s) 0 0 0.

(** [phy->CalculateSnr (mode, ber)], and what
    [WifiRemoteStationManager::SetupPhy] makes of the basic rate set and
    of the default mode, the two members of the base class kept here. *)
Variable CalculateSnr : WifiMode -> float -> float.
Variable BaseSetupPhy :
  list WifiMode -> list WifiMode * WifiMode -> list WifiMode * WifiMode.

Definition set_base (s : SbraWifiManager) (l : list WifiMode) (d : WifiMode) :=
  mkManager l d (m_thresholds s) (m_ber s) (m_per s) (m_type s)
    (m_addBasicMode s) (m_infos s) (m_minSnr s) (m_GroupTxMode s)
    (m_GroupTxMcs s) (m_num s) (m_sum_min_snr s) (m_sum_tx_mode s)
    (m_sum_tx_mcs s).

(** [SetupPhy (phy)], the PHY given by its modes ([GetNModes], [GetMode]):
    one threshold per mode, at [m_ber], then the base class. *)
Definition SetupPhy (phy : list WifiMode) (s : SbraWifiManager)
  : SbraWifiManager :=
  let s :=
    fold_left
      (fun s mode => AddModeSnrThreshold s mode (CalculateSnr mode (m_ber s)))
      phy s in
  let (l, d) := BaseSetupPhy phy (m_bssBasicRateSet s, m_defaultTxMode s) in
  set_base s l d.

(** The first sample stored for an address, as the scan of [UpdateInfo]
    finds it. *)
Fixpoint sample_of (a : Mac48Address) (l : list StaInfo) : option rxInfo :=
  match l with
  | [] => None
  | e :: l' => if (addr e =? a)%Z then Some (info e) else sample_of a l'
  end.

(** *** Facts about the selection loops *)

Lemma populated_infos (s : SbraWifiManager) :
  m_infos (populated s) = m_infos s.
Proof. unfold populated. destruct (m_addBasicMode s); reflexivity. Qed.

Lemma populated_type (s : SbraWifiManager) :
  m_type (populated s) = m_type s.
Proof. unfold populated. destruct (m_addBasicMode s); reflexivity. Qed.

Lemma populated_per (s : SbraWifiManager) :
  m_per (populated s) = m_per s.
Proof. unfold populated. destruct (m_addBasicMode s); reflexivity. Qed.

Lemma PerLoop_cons (snr per : float) (a : WifiMode) (l : list WifiMode)
  (acc : WifiMode * float) :
  PerLoop snr per (a :: l) acc =
  PerLoop snr per l (if loss snr a <? per then (a, loss snr a) else acc).
Proof. reflexivity. Qed.

(** The PER loop ends on the last mode of the list that passes the test
    against [per], or on its start value when none passes. *)
Lemma PerLoop_last (snr per : float) (modes : list WifiMode)
  (acc : WifiMode * float) :
  (Forall (fun y => (loss snr y <? per) = false) modes /\
   PerLoop snr per modes acc = acc) \/
  (exists pre c post,
      modes = pre ++ c :: post /\
      (loss snr c <? per) = true /\
      Forall (fun y => (loss snr y <? per) = false) post /\
      PerLoop snr per modes acc = (c, loss snr c)).
Proof.
  revert acc. induction modes as [|a l IH]; intros acc.
  - left. split; [constructor | reflexivity].
  - rewrite PerLoop_cons.
    destruct (loss snr a <? per) eqn:Ha.
    + destruct (IH (a, loss snr a)) as [[Hall Heq] | (pre & c & post & -> & Hc & Hpost & Heq)].
      * right. exists [], a, l. repeat split; assumption.
      * right. exists (a :: pre), c, post. repeat split; assumption.
    + destruct (IH acc) as [[Hall Heq] | (pre & c & post & -> & Hc & Hpost & Heq)].
      * left. split; [constructor; assumption | assumption].
      * right. exists (a :: pre), c, post. repeat split; assumption.
Qed.

(** A loop that replaces its candidate on a strictly larger score only,
    among the entries that pass [ok]: it ends on its start value when no
    entry passing [ok] scores above it, and otherwise on the first entry
    that no entry passing [ok] beats. *)
Lemma first_maximum (score : WifiMode -> float) (ok : WifiMode -> bool)
  (modes : list WifiMode) (acc : WifiMode * float) :
  let step := fun (acc : WifiMode * float) (y : WifiMode) =>
    if (snd acc <? score y) && ok y then (y, score y) else acc in
  (Forall (fun y => (snd acc <? score y) && ok y = false) modes /\
   fold_left step modes acc = acc) \/
  (exists pre c post,
      modes = pre ++ c :: post /\
      fold_left step modes acc = (c, score c) /\
      (snd acc <? score c) = true /\ ok c = true /\
      Forall (fun y => ok y = true -> (score c <=? score y) = false) pre /\
      Forall (fun y => ok y = true -> (score c <? score y) = false) post).
Proof.
  intros step. revert acc. induction modes as [|a l IH]; intros acc.
  - left. split; [constructor | reflexivity].
  - change (fold_left step (a :: l) acc)
      with (fold_left step l
              (if (snd acc <? score a) && ok a then (a, score a) else acc)).
    destruct ((snd acc <? score a) && ok a) eqn:Ha.
    + apply andb_prop in Ha. destruct Ha as [Hlt Hok].
      destruct (IH (a, score a))
        as [[Hall Heq] | (pre & c & post & -> & Heq & Hc & Hokc & Hpre & Hpost)].
      * right. exists [], a, l. simpl in Hall. repeat split; try assumption.
        -- constructor.
        -- eapply Forall_impl; [|exact Hall]. simpl. intros y Hy Hoky.
           rewrite Hoky, andb_true_r in Hy. exact Hy.
      * right. exists (a :: pre), c, post. simpl in Hc.
        repeat split; try assumption.
        -- exact (Double.ltb_trans _ _ _ Hlt Hc).
        -- constructor; [|assumption]. intros _.
           apply Double.ltb_not_leb. exact Hc.
    + destruct (IH acc)
        as [[Hall Heq] | (pre & c & post & -> & Heq & Hc & Hokc & Hpre & Hpost)].
      * left. split; [constructor; assumption | assumption].
      * right. exists (a :: pre), c, post. repeat split; try assumption.
        constructor; [|assumption]. intros Hoka.
        rewrite Hoka, andb_true_r in Ha.
        destruct (score c <=? score a) eqn:Hle; [|reflexivity].
        rewrite (Double.ltb_leb_trans _ _ _ Hc Hle) in Ha. discriminate.
Qed.

Lemma ThroughputLoop_first_maximum (snr : float) (modes : list WifiMode)
  (m : WifiMode) :
  (Forall (fun y => (0 <? PdrRate snr y) = false) modes /\
   ThroughputLoop snr modes (m, 0) = (m, 0)) \/
  (exists pre c post,
      modes = pre ++ c :: post /\
      ThroughputLoop snr modes (m, 0) = (c, PdrRate snr c) /\
      (0 <? PdrRate snr c) = true /\
      Forall (fun y => (PdrRate snr c <=? PdrRate snr y) = false) pre /\
      Forall (fun y => (PdrRate snr c <? PdrRate snr y) = false) post).
Proof.
  assert (Hstep : forall l acc,
    ThroughputLoop snr l acc =
    fold_left (fun (acc : WifiMode * float) (y : WifiMode) =>
                 if (snd acc <? PdrRate snr y) && true
                 then (y, PdrRate snr y) else acc) l acc).
  { induction l as [|a l IHl]; intros acc; [reflexivity|].
    unfold ThroughputLoop in *. simpl. rewrite IHl. unfold ThroughputStep.
    rewrite andb_true_r. reflexivity. }
  rewrite Hstep.
  destruct (first_maximum (PdrRate snr) (fun _ => true) modes (m, 0))
    as [[Hall Heq] | (pre & c & post & Hm & Heq & Hc & _ & Hpre & Hpost)].
  - left. split; [|exact Heq].
    eapply Forall_impl; [|exact Hall]. simpl. intros y Hy.
    rewrite andb_true_r in Hy. exact Hy.
  - right. exists pre, c, post. repeat split; try assumption.
    + eapply Forall_impl; [|exact Hpre]. simpl. intros y Hy. apply Hy. reflexivity.
    + eapply Forall_impl; [|exact Hpost]. simpl. intros y Hy. apply Hy. reflexivity.
Qed.

(** *** Group-mode recomputation *)

(** C8.  With an empty sample collection a recomputation returns the mode
    at index 0 of the catalog and caches it, whatever [m_type] is (the
    type is not constrained here, so both algorithms are covered). *)
Theorem group_mode_without_samples (s : SbraWifiManager) (m0 : WifiMode) :
  m_infos s = [] ->
  GetBasicMode (populated s) 0 = Done m0 ->
  GroupRateAdaptation s = Done (m0, set_GroupTxMode (populated s) m0) /\
  m_GroupTxMode (set_GroupTxMode (populated s) m0) = m0.
Proof.
  intros Hinfos Hm0. split; [|reflexivity].
  unfold GroupRateAdaptation. cbv zeta.
  rewrite populated_infos, Hinfos, Hm0. reflexivity.
Qed.

(** C2, as the code has it.  With samples whose minimum converts to a
    linear value of at most 1.0, a recomputation selects the mode at
    index 0 of the catalog: the [else] of [if (m_minSnr > 1.0)] assigns
    [GetBasicMode (0)]. *)
Theorem poor_channel_selects_first_mode (s : SbraWifiManager)
  (first : StaInfo) (rest : list StaInfo) (m0 : WifiMode) :
  m_infos s = first :: rest ->
  (linear_min_snr first (first :: rest) <=? 1.0) = true ->
  GetBasicMode (populated s) 0 = Done m0 ->
  exists s',
    GroupRateAdaptation s = Done (m0, s') /\ m_GroupTxMode s' = m0.
Proof.
  intros Hinfos Hlin Hm0.
  unfold GroupRateAdaptation. cbv zeta.
  rewrite populated_infos, Hinfos. cbn [m_minSnr set_minSnr set_sum_min_snr].
  unfold linear_min_snr in Hlin.
  rewrite (Double.leb_not_gtb _ _ Hlin).
  unfold GetBasicMode in *. cbn [m_bssBasicRateSet set_minSnr set_sum_min_snr].
  destruct (nth_error (m_bssBasicRateSet (populated s)) 0) as [m|]; [|discriminate].
  injection Hm0 as ->. simpl. eexists. split; reflexivity.
Qed.

(** C1, as the code has it.  With samples, a linear minimum above 1.0 and
    [m_type = 0], the test of the loop is [tempPer < m_per]: every mode
    that passes it replaces the current one, so the loop ends on the last
    mode of the catalog, in registration order, whose loss probability is
    strictly below [m_per].  That mode is selected unless its loss
    probability is exactly 1; then, and when no mode passes the test, the
    mode at index 0 is. *)
Theorem per_branch_selects_last_qualifying (s : SbraWifiManager)
  (first : StaInfo) (rest : list StaInfo) (m0 : WifiMode) :
  m_infos s = first :: rest ->
  (1.0 <? linear_min_snr first (first :: rest)) = true ->
  m_type s = 0%Z ->
  GetBasicMode (populated s) 0 = Done m0 ->
  let snr := linear_min_snr first (first :: rest) in
  let catalog := m_bssBasicRateSet (populated s) in
  exists m s',
    GroupRateAdaptation s = Done (m, s') /\ m_GroupTxMode s' = m /\
    ((Forall (fun y => (loss snr y <? m_per s) = false) catalog /\ m = m0) \/
     (exists pre c post,
         catalog = pre ++ c :: post /\
         (loss snr c <? m_per s) = true /\
         Forall (fun y => (loss snr y <? m_per s) = false) post /\
         m = if loss snr c =? 1 then m0 else c)).
Proof.
  intros Hinfos Hlin Hty Hm0 snr catalog.
  unfold GroupRateAdaptation. cbv zeta.
  rewrite populated_infos, Hinfos.
  cbn [m_minSnr set_minSnr set_sum_min_snr m_type m_per m_bssBasicRateSet
       m_GroupTxMode].
  unfold linear_min_snr in Hlin, snr. rewrite Hlin.
  rewrite populated_type, Hty, populated_per. cbn [Z.eqb].
  fold snr. fold catalog.
  destruct (PerLoop_last snr (m_per s) catalog
              (m_GroupTxMode (populated s), 1))
    as [[Hall Heq] | (pre & c & post & Hcat & Hc & Hpost & Heq)];
    rewrite Heq.
  - change (1 <? 1) with false. change (1 =? 1) with true. cbv iota.
    unfold GetBasicMode in *.
    cbn [m_bssBasicRateSet set_minSnr set_sum_min_snr].
    destruct (nth_error (m_bssBasicRateSet (populated s)) 0) as [m|];
      [|discriminate].
    injection Hm0 as ->. cbn [bind].
    eexists. eexists. split; [reflexivity|]. split; [reflexivity|].
    left. split; [exact Hall | reflexivity].
  - exists (if loss snr c =? 1 then m0 else c).
    destruct (1 <? loss snr c) eqn:Hgt.
    + rewrite (Double.gtb_not_eqb _ _ Hgt). cbn [bind].
      eexists. split; [reflexivity|]. split; [reflexivity|].
      right. exists pre, c, post. rewrite (Double.gtb_not_eqb _ _ Hgt).
      repeat split; assumption.
    + destruct (loss snr c =? 1) eqn:He.
      * unfold GetBasicMode in *.
        cbn [m_bssBasicRateSet set_minSnr set_sum_min_snr].
        destruct (nth_error (m_bssBasicRateSet (populated s)) 0) as [m|];
          [|discriminate].
        injection Hm0 as ->. cbn [bind].
        eexists. split; [reflexivity|]. split; [reflexivity|].
        right. exists pre, c, post. rewrite He. repeat split; assumption.
      * cbn [bind].
        eexists. split; [reflexivity|]. split; [reflexivity|].
        right. exists pre, c, post. rewrite He. repeat split; assumption.
Qed.

(** C7.  With samples, a linear minimum above 1.0 and [m_type = 1], a
    recomputation selects the catalog mode of largest expected
    throughput, the score written out below: the delivery probability the
    PHY gives the mode for a frame of 1086 bytes ([1086 * 8] bits) at the
    linear minimum, times the data rate of the mode, in Mb/s as the code
    scales it.  No catalog mode has a strictly larger score and no mode
    registered before the selected one reaches it, so the first found
    wins ties.  When no mode has a score above zero (the best one is
    zero), the mode at index 0 is selected. *)
Theorem throughput_branch_selects_first_maximum (s : SbraWifiManager)
  (first : StaInfo) (rest : list StaInfo) (m0 : WifiMode) :
  m_infos s = first :: rest ->
  (1.0 <? linear_min_snr first (first :: rest)) = true ->
  m_type s = 1%Z ->
  GetBasicMode (populated s) 0 = Done m0 ->
  let snr := linear_min_snr first (first :: rest) in
  let catalog := m_bssBasicRateSet (populated s) in
  let score := fun mode =>
    CalculatePdr mode snr (1086 * 8) * Double.of_Z (GetDataRate mode)
    * 0.000001 in
  exists m s',
    GroupRateAdaptation s = Done (m, s') /\ m_GroupTxMode s' = m /\
    ((Forall (fun y => (0 <? score y) = false) catalog /\ m = m0) \/
     (exists pre post,
         catalog = pre ++ m :: post /\
         (0 <? score m) = true /\
         Forall (fun y => (score m <=? score y) = false) pre /\
         Forall (fun y => (score m <? score y) = false) post)).
Proof.
  intros Hinfos Hlin Hty Hm0 snr catalog score.
  unfold GroupRateAdaptation. cbv zeta.
  rewrite populated_infos, Hinfos.
  cbn [m_minSnr set_minSnr set_sum_min_snr m_type m_per m_bssBasicRateSet
       m_GroupTxMode].
  unfold linear_min_snr in Hlin, snr. rewrite Hlin.
  rewrite populated_type, Hty. cbn [Z.eqb].
  fold snr. fold catalog.
  destruct (ThroughputLoop_first_maximum snr catalog
              (m_GroupTxMode (populated s)))
    as [[Hall Heq] | (pre & c & post & Hcat & Heq & Hc & Hpre & Hpost)];
    rewrite Heq.
  - change (0 =? 0) with true. cbv iota.
    unfold GetBasicMode in *.
    cbn [m_bssBasicRateSet set_minSnr set_sum_min_snr].
    destruct (nth_error (m_bssBasicRateSet (populated s)) 0) as [m|];
      [|discriminate].
    injection Hm0 as ->. cbn [bind].
    eexists. eexists. split; [reflexivity|]. split; [reflexivity|].
    left. split; [exact Hall | reflexivity].
  - rewrite (Double.gtb_not_eqb _ _ Hc). cbn [bind].
    exists c. eexists. split; [reflexivity|]. split; [reflexivity|].
    right. exists pre, post. repeat split; assumption.
Qed.

(** *** Per-transmission selection and reports *)

Lemma RtsLoop_registered (s : SbraWifiManager) (lastSnr : float)
  (thr : WifiMode -> float) (modes : list WifiMode)
  (acc : WifiMode * float) :
  (forall m, In m modes -> GetSnrThreshold s m = Done (thr m)) ->
  RtsLoop s lastSnr modes acc =
  Done (fold_left
          (fun (acc : WifiMode * float) (y : WifiMode) =>
             if (snd acc <? thr y) && (thr y <? lastSnr)
             then (y, thr y) else acc)
          modes acc).
Proof.
  revert acc. induction modes as [|a l IH]; intros acc Hreg; [reflexivity|].
  simpl. rewrite (Hreg a (or_introl eq_refl)). cbn [bind].
  apply IH. intros m Hm. apply Hreg. right. exact Hm.
Qed.

(** C9.  The mode of the RTS vector is taken from the basic rate set
    only.  Among the modes whose threshold is strictly below [m_lastSnr]
    (and strictly above 0, the start value of [maxThreshold]) it is the
    one of highest threshold, the first such on ties; when there is none
    it is the default mode.  Every basic mode is taken to have a
    registered threshold, as [GetSnrThreshold] asserts. *)
Theorem rts_mode_highest_threshold_below_last_snr (s : SbraWifiManager)
  (st : Station) (thr : WifiMode -> float) :
  (forall m, In m (m_bssBasicRateSet s) -> GetSnrThreshold s m = Done (thr m)) ->
  let lastSnr := m_lastSnr st in
  exists v,
    DoGetRtsTxVector s st = Done v /\
    ((Forall (fun y => (0 <? thr y) && (thr y <? lastSnr) = false)
             (m_bssBasicRateSet s) /\
      txMode v = GetDefaultMode s) \/
     (exists pre post,
         m_bssBasicRateSet s = pre ++ txMode v :: post /\
         (0 <? thr (txMode v)) = true /\
         (thr (txMode v) <? lastSnr) = true /\
         Forall (fun y => (thr y <? lastSnr) = true ->
                          (thr (txMode v) <=? thr y) = false) pre /\
         Forall (fun y => (thr y <? lastSnr) = true ->
                          (thr (txMode v) <? thr y) = false) post)).
Proof.
  intros Hreg lastSnr. unfold DoGetRtsTxVector.
  rewrite (RtsLoop_registered s (m_lastSnr st) thr _ _ Hreg). cbn [bind].
  eexists. split; [reflexivity|]. cbn [txMode]. fold lastSnr.
  destruct (first_maximum thr (fun y => thr y <? lastSnr)
              (m_bssBasicRateSet s) (GetDefaultMode s, 0))
    as [[Hall Heq] | (pre & c & post & Hcat & Heq & Hc & Hok & Hpre & Hpost)];
    rewrite Heq; cbn [fst].
  - left. split; [exact Hall | reflexivity].
  - right. exists pre, post. repeat split; assumption.
Qed.

Lemma deliver_last_observed (rs : list report) (st : Station) :
  m_lastSnr (fold_left deliver rs st) = last_observed rs (m_lastSnr st).
Proof.
  revert st. induction rs as [|r rs IH]; intros st; [reflexivity|].
  simpl. rewrite IH. destruct r; reflexivity.
Qed.

(** C10.  [DoReportRtsOk] and [DoReportDataOk] store the SNR of the
    exchange ([rtsSnr], [dataSnr]) in [m_lastSnr] and touch nothing else;
    the five other handlers return the station as it was.  Over any
    sequence of reports, [m_lastSnr] is therefore the SNR of the last
    report of success (the last write wins), or the initial value when
    there was none. *)
Theorem reports_update_last_snr (st : Station) :
  (forall ctsSnr ctsMode rtsSnr,
      DoReportRtsOk st ctsSnr ctsMode rtsSnr = mkStation (base st) rtsSnr) /\
  (forall ackSnr ackMode dataSnr,
      DoReportDataOk st ackSnr ackMode dataSnr = mkStation (base st) dataSnr) /\
  (forall rxSnr txMode, DoReportRxOk st rxSnr txMode = st) /\
  DoReportRtsFailed st = st /\
  DoReportDataFailed st = st /\
  DoReportFinalRtsFailed st = st /\
  DoReportFinalDataFailed st = st /\
  (forall rs,
      m_lastSnr (fold_left deliver rs st) = last_observed rs (m_lastSnr st)) /\
  (forall rs ctsSnr ctsMode rtsSnr,
      m_lastSnr (fold_left deliver (rs ++ [RtsOk ctsSnr ctsMode rtsSnr]) st)
      = rtsSnr) /\
  (forall rs ackSnr ackMode dataSnr,
      m_lastSnr (fold_left deliver (rs ++ [DataOk ackSnr ackMode dataSnr]) st)
      = dataSnr).
Proof.
  repeat split; try reflexivity.
  - intros rs. apply deliver_last_observed.
  - intros rs ctsSnr ctsMode rtsSnr. rewrite fold_left_app. reflexivity.
  - intros rs ackSnr ackMode dataSnr. rewrite fold_left_app. reflexivity.
Qed.

(** *** Further facts about the engine *)

(** X1.  The mode of the data vector is the supported mode of largest
    [Fdr * Rate] at [m_lastSnr]: no supported mode has a strictly larger
    one and no earlier supported mode reaches it; when no supported mode
    scores above zero it is the default mode.  The other fields are the
    default power level, the long retry count and the station's
    capabilities; [size] is not used. *)
Theorem data_mode_first_maximum (s : SbraWifiManager) (st : Station)
  (size : Z) :
  let score := fun mode =>
    CalculatePdr mode (m_lastSnr st) (1086 * 8)
    * Double.of_Z (GetDataRate mode) in
  let v := DoGetDataTxVector s st size in
  txRetries v = GetLongRetryCount (base st) /\
  txPowerLevel v = GetDefaultTxPowerLevel /\
  ((Forall (fun y => (0 <? score y) = false) (GetSupportedModes (base st)) /\
    txMode v = GetDefaultMode s) \/
   (exists pre post,
       GetSupportedModes (base st) = pre ++ txMode v :: post /\
       (0 <? score (txMode v)) = true /\
       Forall (fun y => (score (txMode v) <=? score y) = false) pre /\
       Forall (fun y => (score (txMode v) <? score y) = false) post)).
Proof.
  intros score v. unfold v, DoGetDataTxVector.
  assert (Hstep : forall l acc,
    fold_left (DataStep (m_lastSnr st)) l acc =
    fold_left (fun (acc : WifiMode * float) (y : WifiMode) =>
                 if (snd acc <? score y) && true
                 then (y, score y) else acc) l acc).
  { induction l as [|a l IHl]; intros acc; [reflexivity|].
    simpl. rewrite IHl. unfold DataStep. fold (score a).
    rewrite andb_true_r. reflexivity. }
  rewrite Hstep.
  destruct (first_maximum score (fun _ => true) (GetSupportedModes (base st))
              (GetDefaultMode s, 0))
    as [[Hall Heq] | (pre & c & post & Hm & Heq & Hc & _ & Hpre & Hpost)];
    rewrite Heq; cbn [txRetries txPowerLevel txMode].
  - split; [reflexivity|]. split; [reflexivity|]. left. split; [|reflexivity].
    eapply Forall_impl; [|exact Hall]. simpl. intros y Hy.
    rewrite andb_true_r in Hy. exact Hy.
  - split; [reflexivity|]. split; [reflexivity|]. right.
    exists pre, post. repeat split; try assumption.
    + eapply Forall_impl; [|exact Hpre]. simpl. intros y Hy. apply Hy. reflexivity.
    + eapply Forall_impl; [|exact Hpost]. simpl. intros y Hy. apply Hy. reflexivity.
Qed.

Lemma find_threshold_app (t1 t2 : list (float * WifiMode)) (mode : WifiMode) :
  find_threshold (t1 ++ t2) mode =
  match find_threshold t1 mode with
  | Done x => Done x
  | AssertFailed => find_threshold t2 mode
  end.
Proof.
  induction t1 as [|[thr m] t1 IH]; [reflexivity|].
  simpl. destruct (String.eqb mode m); [reflexivity | exact IH].
Qed.

Lemma find_threshold_registered (t : list (float * WifiMode)) (mode : WifiMode) :
  In mode (map snd t) -> exists x, find_threshold t mode = Done x.
Proof.
  induction t as [|[thr m] t IH]; simpl; [contradiction|].
  intros [-> | Hin].
  - rewrite String.eqb_refl. eexists. reflexivity.
  - destruct (String.eqb mode m); [eexists; reflexivity | exact (IH Hin)].
Qed.

Lemma find_threshold_unregistered (t : list (float * WifiMode)) (mode : WifiMode) :
  ~ In mode (map snd t) -> find_threshold t mode = AssertFailed.
Proof.
  induction t as [|[thr m] t IH]; simpl; [reflexivity|].
  intros Hnot. destruct (String.eqb_spec mode m) as [->|Hne].
  - exfalso. apply Hnot. left. reflexivity.
  - apply IH. intros Hin. apply Hnot. right. exact Hin.
Qed.

(** X2.  [GetSnrThreshold] stops at its assertion exactly for the modes
    that were never registered. *)
Theorem GetSnrThreshold_asserts_iff_unregistered (s : SbraWifiManager)
  (mode : WifiMode) :
  GetSnrThreshold s mode = AssertFailed <->
  ~ In mode (map snd (m_thresholds s)).
Proof.
  unfold GetSnrThreshold. split.
  - intros Hfail Hin.
    destruct (find_threshold_registered _ _ Hin) as (x & Hx). congruence.
  - apply find_threshold_unregistered.
Qed.

(** X3.  Registering a threshold is seen by the next lookup of a mode
    that had none, and only by it: a mode keeps the threshold of its
    first registration, and the other modes keep theirs. *)
Theorem AddModeSnrThreshold_first_registration_wins (s : SbraWifiManager)
  (mode added : WifiMode) (snr : float) :
  GetSnrThreshold (AddModeSnrThreshold s added snr) mode =
  match GetSnrThreshold s mode with
  | Done x => Done x
  | AssertFailed => if String.eqb mode added then Done snr else AssertFailed
  end.
Proof.
  unfold GetSnrThreshold, AddModeSnrThreshold. cbn [m_thresholds set_thresholds].
  rewrite find_threshold_app. reflexivity.
Qed.

Lemma SetupPhy_thresholds (phy : list WifiMode) (s : SbraWifiManager) :
  m_thresholds (SetupPhy phy s) =
  m_thresholds s ++ map (fun m => (CalculateSnr m (m_ber s), m)) phy.
Proof.
  unfold SetupPhy.
  assert (Hfold : forall l t,
    let r := fold_left
               (fun s mode =>
                  AddModeSnrThreshold s mode (CalculateSnr mode (m_ber s)))
               l t in
    m_thresholds r =
    m_thresholds t ++ map (fun m => (CalculateSnr m (m_ber t), m)) l /\
    m_ber r = m_ber t).
  { induction l as [|a l IHl]; intros t; simpl.
    - split; [symmetry; apply app_nil_r | reflexivity].
    - destruct (IHl (AddModeSnrThreshold t a (CalculateSnr a (m_ber t))))
        as [Ht Hb].
      simpl in Ht, Hb. split; [|exact Hb].
      rewrite Ht. cbn [m_thresholds AddModeSnrThreshold set_thresholds m_ber].
      rewrite <- app_assoc. reflexivity. }
  destruct (Hfold phy s) as [Ht _].
  destruct (BaseSetupPhy phy _) as [l d]. exact Ht.
Qed.

(** X4.  After [SetupPhy] every mode of the PHY has a threshold: the one
    computed at [m_ber] when the mode had none before. *)
Theorem SetupPhy_registers_every_mode (phy : list WifiMode)
  (s : SbraWifiManager) (mode : WifiMode) :
  In mode phy ->
  exists x,
    GetSnrThreshold (SetupPhy phy s) mode = Done x /\
    (GetSnrThreshold s mode = AssertFailed ->
     x = CalculateSnr mode (m_ber s)).
Proof.
  intros Hin. unfold GetSnrThreshold. rewrite SetupPhy_thresholds.
  rewrite find_threshold_app.
  destruct (find_threshold (m_thresholds s) mode) as [x|] eqn:Hold.
  - exists x. split; [reflexivity | discriminate].
  - exists (CalculateSnr mode (m_ber s)). split; [|reflexivity].
    clear Hold. induction phy as [|a l IH]; simpl in *; [contradiction|].
    destruct (String.eqb_spec mode a) as [->|Hne]; [reflexivity|].
    destruct Hin as [->|Hin]; [contradiction | exact (IH Hin)].
Qed.

(** X5.  [SetupPhy] never changes a threshold that is registered: run
    again, for instance after [m_ber] was changed, it appends entries the
    lookup does not reach. *)
Theorem SetupPhy_keeps_registered_thresholds (phy : list WifiMode)
  (s : SbraWifiManager) (mode : WifiMode) (x : float) :
  GetSnrThreshold s mode = Done x ->
  GetSnrThreshold (SetupPhy phy s) mode = Done x.
Proof.
  unfold GetSnrThreshold. intros Hold.
  rewrite SetupPhy_thresholds, find_threshold_app, Hold. reflexivity.
Qed.

Lemma RtsLoop_done (s : SbraWifiManager) (lastSnr : float)
  (modes : list WifiMode) (acc : WifiMode * float) :
  (forall m, In m modes -> In m (map snd (m_thresholds s))) ->
  exists r, RtsLoop s lastSnr modes acc = Done r.
Proof.
  revert acc. induction modes as [|a l IH]; intros acc Hreg; simpl.
  - eexists. reflexivity.
  - unfold GetSnrThreshold.
    destruct (find_threshold_registered (m_thresholds s) a
                (Hreg a (or_introl eq_refl))) as (x & ->).
    cbn [bind]. apply IH. intros m Hm. apply Hreg. right. exact Hm.
Qed.

(** X6.  After [SetupPhy], [DoGetRtsTxVector] returns a vector, without
    reaching the assertion of [GetSnrThreshold], as soon as the basic
    rate set holds modes of the PHY only. *)
Theorem SetupPhy_then_rts_vector (phy : list WifiMode) (s : SbraWifiManager)
  (st : Station) :
  (forall m, In m (m_bssBasicRateSet (SetupPhy phy s)) -> In m phy) ->
  exists v, DoGetRtsTxVector (SetupPhy phy s) st = Done v.
Proof.
  intros Hsub. unfold DoGetRtsTxVector.
  destruct (RtsLoop_done (SetupPhy phy s) (m_lastSnr st)
              (m_bssBasicRateSet (SetupPhy phy s))
              (GetDefaultMode (SetupPhy phy s), 0)) as (r & ->).
  - intros m Hm. rewrite SetupPhy_thresholds, map_app. apply in_or_app. right.
    rewrite map_map. simpl. rewrite map_id. apply Hsub. exact Hm.
  - cbn [bind]. eexists. reflexivity.
Qed.

Ltac gra_cases H :=
  unfold GroupRateAdaptation, GetBasicMode in H; cbv zeta in H;
  cbn [m_minSnr set_minSnr set_sum_min_snr m_type m_per m_bssBasicRateSet
       m_GroupTxMode m_infos] in H;
  repeat match type of H with
  | context [match m_infos ?x with _ => _ end] => destruct (m_infos x) eqn:?
  | context [PerLoop ?a ?b ?c ?d] => destruct (PerLoop a b c d) eqn:?
  | context [ThroughputLoop ?a ?c ?d] => destruct (ThroughputLoop a c d) eqn:?
  | context [nth_error ?l ?n] => destruct (nth_error l n) eqn:?
  | context [if ?c then _ else _] => destruct c eqn:?
  end;
  cbn [bind] in H; try discriminate H;
  injection H as ? ?; subst.

Ltac float_absurd :=
  match goal with
  | H : (1 <? 1) = true |- _ => vm_compute in H; discriminate H
  | H : (1 =? 1) = false |- _ => vm_compute in H; discriminate H
  | H : (0 =? 0) = false |- _ => vm_compute in H; discriminate H
  end.

Lemma populated_flag (s : SbraWifiManager) :
  m_addBasicMode (populated s) = true.
Proof. unfold populated. destruct (m_addBasicMode s) eqn:H; [exact H | reflexivity]. Qed.

Lemma populated_again (s : SbraWifiManager) :
  populated (populated s) = populated s.
Proof. unfold populated at 1. rewrite populated_flag. reflexivity. Qed.

Lemma PerLoop_in (snr per : float) (modes : list WifiMode)
  (acc : WifiMode * float) :
  PerLoop snr per modes acc = acc \/ In (fst (PerLoop snr per modes acc)) modes.
Proof.
  destruct (PerLoop_last snr per modes acc)
    as [[_ Heq] | (pre & c & post & -> & _ & _ & Heq)].
  - left. exact Heq.
  - right. rewrite Heq. apply in_or_app. right. left. reflexivity.
Qed.

(** X7.  A recomputation that returns leaves [AddOfdmRate] done and the
    catalog as that first call made it, so a later recomputation works on
    the same catalog; it changes neither the samples, nor the thresholds,
    nor the configuration, nor the default mode, and the mode it returns
    is the one it caches. *)
Theorem GroupRateAdaptation_populates_once (s s' : SbraWifiManager)
  (m : WifiMode) :
  GroupRateAdaptation s = Done (m, s') ->
  m_addBasicMode s' = true /\
  m_bssBasicRateSet s' = m_bssBasicRateSet (populated s) /\
  m_bssBasicRateSet (populated s') = m_bssBasicRateSet (populated s) /\
  m_infos s' = m_infos s /\
  m_thresholds s' = m_thresholds s /\
  m_per s' = m_per s /\ m_type s' = m_type s /\ m_ber s' = m_ber s /\
  m_defaultTxMode s' = m_defaultTxMode s /\
  m_GroupTxMode s' = m.
Proof.
  intros Hrun.
  assert (Hframe :
    m_addBasicMode s' = m_addBasicMode (populated s) /\
    m_bssBasicRateSet s' = m_bssBasicRateSet (populated s) /\
    m_infos s' = m_infos (populated s) /\
    m_thresholds s' = m_thresholds (populated s) /\
    m_per s' = m_per (populated s) /\ m_type s' = m_type (populated s) /\
    m_ber s' = m_ber (populated s) /\
    m_defaultTxMode s' = m_defaultTxMode (populated s) /\
    m_GroupTxMode s' = m).
  { gra_cases Hrun; repeat split; simpl; congruence. }
  destruct Hframe as (Hf & Hc & Hi & Ht & Hp & Hty & Hb & Hd & Hm).
  rewrite populated_flag in Hf.
  assert (Hpop : forall t, m_thresholds (populated t) = m_thresholds t /\
                           m_ber (populated t) = m_ber t /\
                           m_defaultTxMode (populated t) = m_defaultTxMode t).
  { intros t. unfold populated. destruct (m_addBasicMode t); repeat split. }
  destruct (Hpop s) as (Hpt & Hpb & Hpd).
  repeat split; try assumption; try congruence.
  - unfold populated at 1. rewrite Hf. exact Hc.
  - rewrite Hi. apply populated_infos.
  - rewrite Hp. apply populated_per.
  - rewrite Hty. apply populated_type.
Qed.

(** X8.  With [m_type] 0 or 1, the mode a recomputation returns is a
    mode of the catalog. *)
Theorem group_mode_in_catalog (s s' : SbraWifiManager) (m : WifiMode) :
  m_type s = 0%Z \/ m_type s = 1%Z ->
  GroupRateAdaptation s = Done (m, s') ->
  In m (m_bssBasicRateSet (populated s)).
Proof.
  intros Hty Hrun. rewrite <- populated_type in Hty.
  assert (Hloop0 := fun snr acc =>
    PerLoop_in snr (m_per (populated s)) (m_bssBasicRateSet (populated s)) acc).
  assert (Hloop1 := fun snr m =>
    ThroughputLoop_first_maximum snr (m_bssBasicRateSet (populated s)) m).
  gra_cases Hrun; cbn [m_GroupTxMode set_GroupTxMode set_stats];
    try (eapply nth_error_In; eassumption);
    try (exfalso; apply Z.eqb_neq in Heqb0; apply Z.eqb_neq in Heqb1; lia).
  all: match goal with
    | Hp : PerLoop ?snr _ _ ?acc = (?w, ?f) |- In ?w _ =>
        destruct (Hloop0 snr acc) as [Hsame | Hin];
        [ rewrite Hp in Hsame; injection Hsame as Hw Hf; subst f;
          float_absurd
        | rewrite Hp in Hin; exact Hin ]
    | Hp : ThroughputLoop ?snr _ (?w0, _) = (?w, ?f) |- In ?w _ =>
        destruct (Hloop1 snr w0)
          as [[_ Hsame] | (pre & c & post & Hcat & Heq & _)];
        [ rewrite Hp in Hsame; injection Hsame as Hw Hf; subst f;
          float_absurd
        | rewrite Hp in Heq; injection Heq as Hw _; subst w; rewrite Hcat;
          apply in_or_app; right; left; reflexivity ]
    end.
Qed.

(** X9.  With samples, a linear minimum above 1.0 and an [m_type] that is
    neither 0 nor 1, a recomputation runs no selection: it returns the
    group mode cached before the call, whatever the catalog holds. *)
Theorem other_type_keeps_group_mode (s : SbraWifiManager)
  (first : StaInfo) (rest : list StaInfo) :
  m_infos s = first :: rest ->
  (1.0 <? linear_min_snr first (first :: rest)) = true ->
  m_type s <> 0%Z -> m_type s <> 1%Z ->
  exists s',
    GroupRateAdaptation s = Done (m_GroupTxMode s, s') /\
    m_GroupTxMode s' = m_GroupTxMode s.
Proof.
  intros Hinfos Hlin H0 H1.
  assert (Hmode : m_GroupTxMode (populated s) = m_GroupTxMode s)
    by (unfold populated; destruct (m_addBasicMode s); reflexivity).
  unfold GroupRateAdaptation. cbv zeta.
  rewrite populated_infos, Hinfos.
  cbn [m_minSnr set_minSnr set_sum_min_snr m_type m_per m_bssBasicRateSet
       m_GroupTxMode].
  unfold linear_min_snr in Hlin. rewrite Hlin, populated_type.
  apply Z.eqb_neq in H0. apply Z.eqb_neq in H1. rewrite H0, H1, Hmode.
  eexists. split; [reflexivity|]. simpl. exact Hmode.
Qed.

(** X10.  The running statistics do not advance together: every
    recomputation with samples adds the decibel minimum to
    [m_sum_min_snr], while [m_num], the divisor of the three averages,
    is incremented (modulo 2^32) by the PER branch only, that is with
    [m_type = 0] and a linear minimum above 1.0. *)
Theorem statistics_after_recomputation (s s' : SbraWifiManager)
  (m : WifiMode) (first : StaInfo) (rest : list StaInfo) :
  m_infos s = first :: rest ->
  GroupRateAdaptation s = Done (m, s') ->
  m_sum_min_snr s' = m_sum_min_snr s + min_rssi first (first :: rest) /\
  m_num s' =
  (if (1.0 <? linear_min_snr first (first :: rest)) && (m_type s =? 0)%Z
   then wrap 32 (m_num s + 1) else m_num s).
Proof.
  intros Hinfos Hrun.
  assert (Hpop : m_sum_min_snr (populated s) = m_sum_min_snr s /\
                 m_num (populated s) = m_num s)
    by (unfold populated; destruct (m_addBasicMode s); split; reflexivity).
  destruct Hpop as [Hsum Hnum].
  rewrite <- populated_infos in Hinfos. rewrite <- populated_type.
  rewrite <- Hsum, <- Hnum. unfold linear_min_snr.
  gra_cases Hrun; try discriminate Hinfos; injection Hinfos as -> ->;
    simpl;
    repeat match goal with
    | H : _ = true |- _ => rewrite H
    | H : _ = false |- _ => rewrite H
    end;
    split; reflexivity.
Qed.

(** The minimum loop ends on its start value or strictly below it, on
    the value of an entry when it moved, and no entry is strictly below
    its result. *)
Lemma min_fold (l : list StaInfo) (m0 : float) :
  let r := fold_left
             (fun m e => if Rssi (info e) <? m then Rssi (info e) else m)
             l m0 in
  (r = m0 \/ (r <? m0) = true) /\
  (r = m0 \/ exists e, In e l /\ r = Rssi (info e)) /\
  (forall e, In e l -> (Rssi (info e) <? r) = false).
Proof.
  revert m0. induction l as [|a l IH]; intros m0; simpl.
  - split; [left; reflexivity|]. split; [left; reflexivity|].
    intros e [].
  - specialize (IH (if Rssi (info a) <? m0 then Rssi (info a) else m0)).
    simpl in IH. destruct IH as (Hdesc & Hatt & Hlow).
    set (r := fold_left _ l _) in *.
    destruct (Rssi (info a) <? m0) eqn:Ha.
    + split; [|split].
      * right. destruct Hdesc as [-> | Hlt]; [exact Ha|].
        exact (Double.ltb_trans _ _ _ Hlt Ha).
      * right. destruct Hatt as [-> | (e & He & Hr)].
        -- exists a. split; [left; reflexivity | reflexivity].
        -- exists e. split; [right; exact He | exact Hr].
      * intros e [<- | He]; [|exact (Hlow e He)].
        destruct Hdesc as [-> | Hlt]; [apply Double.ltb_irrefl|].
        destruct (Rssi (info a) <? r) eqn:Hbad; [|reflexivity].
        rewrite <- (Double.ltb_irrefl r). symmetry.
        exact (Double.ltb_trans _ _ _ Hlt Hbad).
    + split; [exact Hdesc|]. split.
      * destruct Hatt as [-> | (e & He & Hr)]; [left; reflexivity|].
        right. exists e. split; [right; exact He | exact Hr].
      * intros e [<- | He]; [|exact (Hlow e He)].
        destruct Hdesc as [-> | Hlt]; [exact Ha|].
        destruct (Rssi (info a) <? r) eqn:Hbad; [|reflexivity].
        rewrite <- Ha. symmetry.
        exact (Double.ltb_trans _ _ _ Hbad Hlt).
Qed.

(** X11.  The value the recomputation takes as minimum is the signal
    strength of one of the samples, and no sample has a strictly smaller
    one. *)
Theorem min_rssi_is_a_minimum (first : StaInfo) (rest : list StaInfo) :
  (exists e, In e (first :: rest) /\
             min_rssi first (first :: rest) = Rssi (info e)) /\
  (forall e, In e (first :: rest) ->
             (Rssi (info e) <? min_rssi first (first :: rest)) = false).
Proof.
  destruct (min_fold (first :: rest) (Rssi (info first)))
    as (_ & Hatt & Hlow).
  unfold min_rssi. split; [|exact Hlow].
  destruct Hatt as [Heq | Hex]; [|exact Hex].
  exists first. split; [left; reflexivity | exact Heq].
Qed.

(** X12.  Whatever the mode, the test frame of the PER branch is a whole
    number of OFDM symbols of more than the 8534 bits of payload and
    overhead, and of at most 17280 bits. *)
Theorem test_frame_bits_bounds (mode : WifiMode) :
  (8534 < test_frame_bits mode <= 17280)%Z /\
  (test_frame_bits mode mod 48 = 0)%Z.
Proof.
  unfold test_frame_bits.
  destruct (GetCodeRate mode); cbn [WifiCodeRate_eqb];
    destruct (GetPhyRate mode =? 12000000)%Z;
    try destruct (GetPhyRate mode =? 24000000)%Z;
    try destruct (GetPhyRate mode =? 48000000)%Z;
    try destruct (GetPhyRate mode =? 72000000)%Z;
    vm_compute; repeat split; try reflexivity; intros H; discriminate H.
Qed.

Lemma div_by_zero_count (x : float) :
  Double.is_number (x / Double.of_Z 0) = false.
Proof.
  unfold Double.is_number. rewrite div_spec.
  change (Prim2SF (Double.of_Z 0)) with (S754_zero false).
  destruct (Prim2SF x) as [[]|[]| |[] m e]; reflexivity.
Qed.

(** X13.  While [m_num] is 0, as the constructor leaves it, the three
    averages divide by zero: none of them is a number (each is a NaN or
    an infinity). *)
Theorem averages_without_count (s : SbraWifiManager) :
  m_num s = 0%Z ->
  Double.is_number (GetAvgMinSnrDb s) = false /\
  Double.is_number (GetAvgTxMode s) = false /\
  Double.is_number (GetAvgTxMcs s) = false.
Proof.
  intros Hnum. unfold GetAvgMinSnrDb, GetAvgTxMode, GetAvgTxMcs.
  rewrite Hnum. repeat split; apply div_by_zero_count.
Qed.

End Engine.

(** *** Feedback ingestion *)

Section Ingestion.

Variable stainfo_info : rxInfo.

Lemma overwrite_absent (a : Mac48Address) (i : rxInfo) (l : list StaInfo) :
  (forall e, In e l -> addr e <> a) -> overwrite a i l = (false, l).
Proof.
  induction l as [|e l IH]; intros Habs; [reflexivity|].
  simpl. destruct (Z.eqb_spec (addr e) a) as [Heq|Hne].
  - exfalso. exact (Habs e (or_introl eq_refl) Heq).
  - rewrite IH; [reflexivity|]. intros e' He'. apply Habs. right. exact He'.
Qed.

Lemma overwrite_appended (a : Mac48Address) (i x : rxInfo) (l : list StaInfo) :
  (forall e, In e l -> addr e <> a) ->
  overwrite a i (l ++ [mkStaInfo a x]) = (true, l ++ [mkStaInfo a i]).
Proof.
  induction l as [|e l IH]; intros Habs.
  - simpl. rewrite Z.eqb_refl. reflexivity.
  - simpl. destruct (Z.eqb_spec (addr e) a) as [Heq|Hne].
    + exfalso. exact (Habs e (or_introl eq_refl) Heq).
    + rewrite IH; [reflexivity|]. intros e' He'. apply Habs. right. exact He'.
Qed.

(** Once the scan has found an entry, scanning again with the same
    arguments finds it again and writes what is there already. *)
Lemma overwrite_found_again (a : Mac48Address) (i : rxInfo) (l r : list StaInfo) :
  overwrite a i l = (true, r) -> overwrite a i r = (true, r).
Proof.
  revert r. induction l as [|e l IH]; intros r; simpl; [discriminate|].
  destruct (Z.eqb_spec (addr e) a) as [Heq|Hne].
  - intros [= <-]. simpl. rewrite Heq, Z.eqb_refl. reflexivity.
  - destruct (overwrite a i l) as [exist r'] eqn:Hov.
    intros [= -> <-]. simpl.
    destruct (Z.eqb_spec (addr e) a); [contradiction|].
    rewrite (IH r' eq_refl). reflexivity.
Qed.

(** For a peer that has an entry, a repeated call changes nothing. *)
Lemma UpdateInfo_known_peer_idempotent (a : Mac48Address) (i : rxInfo)
  (l r : list StaInfo) :
  overwrite a i l = (true, r) ->
  UpdateInfo_infos stainfo_info a i (UpdateInfo_infos stainfo_info a i l)
  = UpdateInfo_infos stainfo_info a i l.
Proof.
  intros Hov. unfold UpdateInfo_infos. rewrite Hov.
  rewrite (overwrite_found_again a i l r Hov). reflexivity.
Qed.

(** C4.  For an address without an entry, [UpdateInfo] appends an entry
    that carries the address and the default-initialised [info] of the
    local [stainfo]: the result is the same for every sample passed, so
    nothing of the sample is copied.  The sample of a later call for that
    address is what the entry then holds. *)
Theorem UpdateInfo_new_peer_keeps_address_only (s : SbraWifiManager)
  (a : Mac48Address) (i : rxInfo) :
  (forall e, In e (m_infos s) -> addr e <> a) ->
  m_infos (UpdateInfo stainfo_info a i s)
  = m_infos s ++ [mkStaInfo a stainfo_info] /\
  (forall i', UpdateInfo stainfo_info a i' s = UpdateInfo stainfo_info a i s) /\
  (forall i',
      m_infos (UpdateInfo stainfo_info a i' (UpdateInfo stainfo_info a i s))
      = m_infos s ++ [mkStaInfo a i']).
Proof.
  intros Habs.
  assert (Hfirst : forall j,
    UpdateInfo_infos stainfo_info a j (m_infos s)
    = m_infos s ++ [mkStaInfo a stainfo_info]).
  { intros j. unfold UpdateInfo_infos.
    rewrite (overwrite_absent a j (m_infos s) Habs). reflexivity. }
  split; [|split].
  - simpl. apply Hfirst.
  - intros i'. unfold UpdateInfo. rewrite !Hfirst. reflexivity.
  - intros i'. simpl. rewrite Hfirst. unfold UpdateInfo_infos.
    rewrite (overwrite_appended a i' stainfo_info (m_infos s) Habs).
    reflexivity.
Qed.

End Ingestion.

(** *** Further facts about ingestion *)

Section IngestionMore.

Variable stainfo_info : rxInfo.

(** An address has an entry. *)
Definition known (a : Mac48Address) (l : list StaInfo) : bool :=
  existsb (fun e => (addr e =? a)%Z) l.

Lemma overwrite_exist (a : Mac48Address) (i : rxInfo) (l : list StaInfo) :
  fst (overwrite a i l) = known a l.
Proof.
  induction l as [|e l IH]; [reflexivity|].
  simpl. destruct (addr e =? a)%Z; [reflexivity|].
  destruct (overwrite a i l). exact IH.
Qed.

Lemma overwrite_addresses (a : Mac48Address) (i : rxInfo) (l : list StaInfo) :
  map addr (snd (overwrite a i l)) = map addr l.
Proof.
  induction l as [|e l IH]; [reflexivity|].
  simpl. destruct (addr e =? a)%Z; [reflexivity|].
  destruct (overwrite a i l). simpl in *. rewrite IH. reflexivity.
Qed.

Lemma overwrite_sample (a b : Mac48Address) (i : rxInfo) (l : list StaInfo) :
  sample_of b (snd (overwrite a i l)) =
  if (b =? a)%Z && known a l then Some i else sample_of b l.
Proof.
  induction l as [|e l IH]; simpl.
  - rewrite andb_false_r. reflexivity.
  - destruct (Z.eqb_spec (addr e) a) as [Hea|Hea]; simpl.
    + destruct (Z.eqb_spec b a) as [->|Hba]; simpl.
      * rewrite Hea, Z.eqb_refl. reflexivity.
      * rewrite Hea. destruct (Z.eqb_spec a b) as [Hab|_]; [congruence|].
        reflexivity.
    + destruct (overwrite a i l) as [exist r]. simpl in *.
      destruct (Z.eqb_spec (addr e) b) as [Heb|Heb].
      * destruct (Z.eqb_spec b a) as [->|Hba]; [contradiction | reflexivity].
      * exact IH.
Qed.

Lemma sample_of_app (b : Mac48Address) (l : list StaInfo) (x : StaInfo) :
  sample_of b (l ++ [x]) =
  match sample_of b l with
  | Some i => Some i
  | None => if (addr x =? b)%Z then Some (info x) else None
  end.
Proof.
  induction l as [|e l IH]; [reflexivity|].
  simpl. destruct (addr e =? b)%Z; [reflexivity | exact IH].
Qed.

Lemma sample_of_unknown (a : Mac48Address) (l : list StaInfo) :
  known a l = false -> sample_of a l = None.
Proof.
  induction l as [|e l IH]; [reflexivity|].
  simpl. destruct (addr e =? a)%Z; [discriminate | exact IH].
Qed.

Lemma known_In (a : Mac48Address) (l : list StaInfo) :
  known a l = true <-> In a (map addr l).
Proof.
  unfold known. rewrite existsb_exists, in_map_iff. split.
  - intros (e & He & Heq). apply Z.eqb_eq in Heq. exists e. split; assumption.
  - intros (e & Heq & He). exists e. split; [exact He | apply Z.eqb_eq; exact Heq].
Qed.

Lemma UpdateInfo_infos_sample (l : list StaInfo) (a b : Mac48Address)
  (i : rxInfo) :
  sample_of b (UpdateInfo_infos stainfo_info a i l) =
  if (b =? a)%Z
  then Some (if known a l then i else stainfo_info)
  else sample_of b l.
Proof.
  unfold UpdateInfo_infos.
  pose proof (overwrite_exist a i l) as Hex.
  pose proof (overwrite_sample a b i l) as Hsm.
  destruct (overwrite a i l) as [exist r]. simpl in *. subst exist.
  destruct (known a l) eqn:Hk.
  - rewrite Hsm. rewrite andb_true_r. destruct (b =? a)%Z; reflexivity.
  - rewrite sample_of_app, Hsm, andb_false_r. cbn [addr info].
    destruct (Z.eqb_spec b a) as [->|Hba].
    + rewrite (sample_of_unknown a l Hk), Z.eqb_refl. reflexivity.
    + destruct (sample_of b l); [reflexivity|].
      destruct (Z.eqb_spec a b) as [Heq|_]; [congruence | reflexivity].
Qed.

Lemma UpdateInfo_infos_length (l : list StaInfo) (a : Mac48Address)
  (i : rxInfo) :
  List.length (UpdateInfo_infos stainfo_info a i l) =
  (List.length l + if known a l then 0 else 1)%nat.
Proof.
  unfold UpdateInfo_infos.
  pose proof (overwrite_exist a i l) as Hex.
  pose proof (overwrite_addresses a i l) as Had.
  destruct (overwrite a i l) as [exist r]. simpl in *. subst exist.
  assert (Hlen : List.length r = List.length l)
    by (rewrite <- (length_map addr r), Had; apply length_map).
  destruct (known a l); [lia|]. rewrite length_app, Hlen. reflexivity.
Qed.

(** X14.  What the collection holds for an address after [UpdateInfo]:
    for the address of the call, the sample passed when the address had
    an entry and the default-initialised [info] when it had none; for
    every other address, what it held before. *)
Theorem sample_after_UpdateInfo (s : SbraWifiManager) (a b : Mac48Address)
  (i : rxInfo) :
  sample_of b (m_infos (UpdateInfo stainfo_info a i s)) =
  if (b =? a)%Z
  then Some (if known a (m_infos s) then i else stainfo_info)
  else sample_of b (m_infos s).
Proof.
  cbn [UpdateInfo m_infos set_infos]. apply UpdateInfo_infos_sample.
Qed.

(** X15.  [UpdateInfo] keeps one entry per address: a collection without
    two entries of one address stays so, holds the address of the call
    afterwards, and grows by one entry exactly when that address had
    none. *)
Theorem UpdateInfo_one_entry_per_peer (s : SbraWifiManager)
  (a : Mac48Address) (i : rxInfo) :
  NoDup (map addr (m_infos s)) ->
  NoDup (map addr (m_infos (UpdateInfo stainfo_info a i s))) /\
  In a (map addr (m_infos (UpdateInfo stainfo_info a i s))) /\
  List.length (m_infos (UpdateInfo stainfo_info a i s)) =
  (List.length (m_infos s) + if known a (m_infos s) then 0 else 1)%nat.
Proof.
  intros Hnd. cbn [UpdateInfo m_infos set_infos]. unfold UpdateInfo_infos.
  pose proof (overwrite_exist a i (m_infos s)) as Hex.
  pose proof (overwrite_addresses a i (m_infos s)) as Had.
  destruct (overwrite a i (m_infos s)) as [exist r]. simpl in *. subst exist.
  assert (Hlen : List.length r = List.length (m_infos s))
    by (rewrite <- (length_map addr r), Had; apply length_map).
  destruct (known a (m_infos s)) eqn:Hk.
  - rewrite Had. split; [exact Hnd|]. split; [apply known_In; exact Hk|].
    rewrite Hlen. lia.
  - rewrite map_app, Had. simpl. split; [|split].
    + apply NoDup_app; [exact Hnd | constructor; [intros [] | constructor] |].
      intros x Hx [<- | []].
      apply known_In in Hx. congruence.
    + apply in_or_app. right. left. reflexivity.
    + rewrite length_app, Hlen. reflexivity.
Qed.

Lemma overwrite_twice (a : Mac48Address) (i1 i2 : rxInfo) (l : list StaInfo) :
  known a l = true ->
  overwrite a i2 (snd (overwrite a i1 l)) = overwrite a i2 l.
Proof.
  induction l as [|e l IH]; simpl; [discriminate|].
  destruct (Z.eqb_spec (addr e) a) as [Hea|Hea]; simpl.
  - intros _. rewrite Hea, Z.eqb_refl. reflexivity.
  - intros Hk. specialize (IH Hk).
    destruct (overwrite a i1 l) as [ex1 r1]. simpl in *.
    destruct (Z.eqb_spec (addr e) a); [contradiction|].
    rewrite IH. reflexivity.
Qed.

(** X16.  For an address that has an entry the last write wins: two
    calls in a row leave the manager as the second call alone does. *)
Theorem UpdateInfo_last_write_wins (s : SbraWifiManager)
  (a : Mac48Address) (i1 i2 : rxInfo) :
  In a (map addr (m_infos s)) ->
  UpdateInfo stainfo_info a i2 (UpdateInfo stainfo_info a i1 s)
  = UpdateInfo stainfo_info a i2 s.
Proof.
  intros Hin. apply known_In in Hin.
  unfold UpdateInfo. cbn [m_infos set_infos]. unfold set_infos. cbn.
  f_equal. unfold UpdateInfo_infos.
  pose proof (overwrite_exist a i1 (m_infos s)) as Hex.
  pose proof (overwrite_twice a i1 i2 (m_infos s) Hin) as Htw.
  destruct (overwrite a i1 (m_infos s)) as [exist r]. simpl in *.
  rewrite Hin in Hex. subst exist. rewrite Htw. reflexivity.
Qed.

End IngestionMore.

Section FirstReport.

Variable GetDataRate : WifiMode -> Z.
Variable GetPhyRate : WifiMode -> Z.
Variable GetCodeRate : WifiMode -> WifiCodeRate.
Variable CalculatePdr : WifiMode -> float -> Z -> float.
Variable pow : float -> float -> float.
Variable AddBasicMode : list WifiMode -> WifiMode -> list WifiMode.
Variable stainfo_info : rxInfo.

(** X17.  The first report of a peer has no part in the group mode: for
    an address without an entry, the recomputation that follows
    [UpdateInfo] gives the same result whatever sample was passed. *)
Theorem first_report_not_used (s : SbraWifiManager) (a : Mac48Address)
  (i1 i2 : rxInfo) :
  known a (m_infos s) = false ->
  GroupRateAdaptation GetDataRate GetPhyRate GetCodeRate CalculatePdr pow
    AddBasicMode (UpdateInfo stainfo_info a i1 s)
  = GroupRateAdaptation GetDataRate GetPhyRate GetCodeRate CalculatePdr pow
      AddBasicMode (UpdateInfo stainfo_info a i2 s).
Proof.
  intros Hk. f_equal. unfold UpdateInfo. f_equal. unfold UpdateInfo_infos.
  pose proof (overwrite_exist a i1 (m_infos s)) as H1.
  pose proof (overwrite_exist a i2 (m_infos s)) as H2.
  assert (Hsame : forall i, snd (overwrite a i (m_infos s)) = m_infos s).
  { intros i. rewrite (overwrite_absent a i (m_infos s)); [reflexivity|].
    intros e He Heq.
    assert (Hin : In a (map addr (m_infos s)))
      by (rewrite <- Heq; apply in_map; exact He).
    apply known_In in Hin. congruence. }
  pose proof (Hsame i1) as S1. pose proof (Hsame i2) as S2.
  destruct (overwrite a i1 (m_infos s)) as [e1 r1].
  destruct (overwrite a i2 (m_infos s)) as [e2 r2].
  simpl in *. subst. rewrite Hk. reflexivity.
Qed.

End FirstReport.

(** *** The engine on the fixture *)

Lemma group_mode_without_samples_witness :
  m_infos (Fixture.manager 1) = [] /\
  GetBasicMode (populated Fixture.add_basic_mode (Fixture.manager 1)) 0
  = Done "OfdmRate6Mbps"%string /\
  GroupRateAdaptation Fixture.data_rate Fixture.phy_rate Fixture.code_rate
    Fixture.pdr Fixture.pow_int Fixture.add_basic_mode (Fixture.manager 1)
  = Done ("OfdmRate6Mbps"%string,
          set_GroupTxMode
            (populated Fixture.add_basic_mode (Fixture.manager 1))
            "OfdmRate6Mbps"%string).
Proof.
  split; [reflexivity|]. split; [reflexivity|].
  exact (proj1 (group_mode_without_samples Fixture.data_rate Fixture.phy_rate
                  Fixture.code_rate Fixture.pdr Fixture.pow_int
                  Fixture.add_basic_mode (Fixture.manager 1)
                  "OfdmRate6Mbps"%string eq_refl eq_refl)).
Defined.

Lemma poor_channel_selects_first_mode_witness :
  (linear_min_snr Fixture.pow_int (Fixture.sample Fixture.peer 0) [Fixture.sample Fixture.peer 0]
   <=? 1.0) = true /\
  exists s',
    GroupRateAdaptation Fixture.data_rate Fixture.phy_rate Fixture.code_rate
      Fixture.pdr Fixture.pow_int Fixture.add_basic_mode
      (Fixture.poor_channel 0)
    = Done ("OfdmRate6Mbps"%string, s') /\
    m_GroupTxMode s' = "OfdmRate6Mbps"%string.
Proof.
  split; [vm_compute; reflexivity|].
  apply (poor_channel_selects_first_mode Fixture.data_rate Fixture.phy_rate
           Fixture.code_rate Fixture.pdr Fixture.pow_int
           Fixture.add_basic_mode (Fixture.poor_channel 0)
           (Fixture.sample Fixture.peer 0) []);
    vm_compute; reflexivity.
Defined.

(** C2, as the claim has it, fails: a manager that selected 54 Mb/s on a
    report of 20 dB receives a report of 0 dB from the same peer (linear
    value 1.0, not above 1.0); the recomputation leaves 6 Mb/s selected,
    not the 54 Mb/s selected before the call. *)
Lemma poor_channel_changes_group_mode :
  exists s1 s2,
    GroupRateAdaptation Fixture.data_rate Fixture.phy_rate Fixture.code_rate
      Fixture.pdr Fixture.pow_int Fixture.add_basic_mode
      (Fixture.good_channel 0)
    = Done ("OfdmRate54Mbps"%string, s1) /\
    m_infos (UpdateInfo Fixture.blank Fixture.peer (mkRxInfo 0 0 0 0) s1)
    = [Fixture.sample Fixture.peer 0] /\
    (linear_min_snr Fixture.pow_int (Fixture.sample Fixture.peer 0) [Fixture.sample Fixture.peer 0]
     <=? 1.0) = true /\
    m_GroupTxMode (UpdateInfo Fixture.blank Fixture.peer (mkRxInfo 0 0 0 0) s1)
    = "OfdmRate54Mbps"%string /\
    GroupRateAdaptation Fixture.data_rate Fixture.phy_rate Fixture.code_rate
      Fixture.pdr Fixture.pow_int Fixture.add_basic_mode
      (UpdateInfo Fixture.blank Fixture.peer (mkRxInfo 0 0 0 0) s1)
    = Done ("OfdmRate6Mbps"%string, s2) /\
    m_GroupTxMode s2 = "OfdmRate6Mbps"%string /\
    m_GroupTxMode s2
    <> m_GroupTxMode (UpdateInfo Fixture.blank Fixture.peer (mkRxInfo 0 0 0 0) s1).
Proof.
  eexists. eexists.
  split; [vm_compute; reflexivity|].
  split; [vm_compute; reflexivity|].
  split; [vm_compute; reflexivity|].
  split; [vm_compute; reflexivity|].
  split; [vm_compute; reflexivity|].
  split; [vm_compute; reflexivity|].
  vm_compute. discriminate.
Qed.

Lemma per_branch_selects_last_qualifying_witness :
  (1.0 <? linear_min_snr Fixture.pow_int (Fixture.sample Fixture.peer 20)
            [Fixture.sample Fixture.peer 20]) = true /\
  m_type (Fixture.good_channel 0) = 0%Z /\
  exists m s',
    GroupRateAdaptation Fixture.data_rate Fixture.phy_rate Fixture.code_rate
      Fixture.pdr Fixture.pow_int Fixture.add_basic_mode
      (Fixture.good_channel 0)
    = Done (m, s') /\ m_GroupTxMode s' = m.
Proof.
  split; [vm_compute; reflexivity|]. split; [reflexivity|].
  destruct (per_branch_selects_last_qualifying Fixture.data_rate
              Fixture.phy_rate Fixture.code_rate Fixture.pdr Fixture.pow_int
              Fixture.add_basic_mode (Fixture.good_channel 0)
              (Fixture.sample Fixture.peer 20) [] "OfdmRate6Mbps"%string
              eq_refl eq_refl eq_refl eq_refl)
    as (m & s' & Hrun & Hmode & _).
  exists m, s'. split; assumption.
Defined.

(** C1, as the claim has it, fails: at 20 dB every mode of the fixture
    has a loss probability below [m_per]; 6 Mb/s has the smallest one and
    is found first, and 54 Mb/s, found last, is selected although its
    loss probability is strictly larger. *)
Lemma per_branch_keeps_larger_loss :
  (1.0 <? linear_min_snr Fixture.pow_int (Fixture.sample Fixture.peer 20)
            [Fixture.sample Fixture.peer 20]) = true /\
  m_type (Fixture.good_channel 0) = 0%Z /\
  (exists s',
      GroupRateAdaptation Fixture.data_rate Fixture.phy_rate
        Fixture.code_rate Fixture.pdr Fixture.pow_int Fixture.add_basic_mode
        (Fixture.good_channel 0)
      = Done ("OfdmRate54Mbps"%string, s')) /\
  nth_error
    (m_bssBasicRateSet
       (populated Fixture.add_basic_mode (Fixture.good_channel 0))) 0
  = Some "OfdmRate6Mbps"%string /\
  (loss Fixture.phy_rate Fixture.code_rate Fixture.pdr
     (linear_min_snr Fixture.pow_int (Fixture.sample Fixture.peer 20)
        [Fixture.sample Fixture.peer 20]) "OfdmRate6Mbps"%string
   <? m_per (Fixture.good_channel 0)) = true /\
  (loss Fixture.phy_rate Fixture.code_rate Fixture.pdr
     (linear_min_snr Fixture.pow_int (Fixture.sample Fixture.peer 20)
        [Fixture.sample Fixture.peer 20]) "OfdmRate6Mbps"%string
   <? loss Fixture.phy_rate Fixture.code_rate Fixture.pdr
        (linear_min_snr Fixture.pow_int (Fixture.sample Fixture.peer 20)
           [Fixture.sample Fixture.peer 20]) "OfdmRate54Mbps"%string) = true.
Proof.
  split; [vm_compute; reflexivity|]. split; [reflexivity|].
  split; [eexists; vm_compute; reflexivity|].
  split; [reflexivity|].
  split; vm_compute; reflexivity.
Qed.

Lemma throughput_branch_selects_first_maximum_witness :
  (1.0 <? linear_min_snr Fixture.pow_int (Fixture.sample Fixture.peer 20)
            [Fixture.sample Fixture.peer 20]) = true /\
  m_type (Fixture.good_channel 1) = 1%Z /\
  (Fixture.pdr "OfdmRate48Mbps"%string 100 (1086 * 8)
   * Double.of_Z (Fixture.data_rate "OfdmRate48Mbps"%string) * 0.000001
   <? Fixture.pdr "OfdmRate54Mbps"%string 100 (1086 * 8)
      * Double.of_Z (Fixture.data_rate "OfdmRate54Mbps"%string) * 0.000001)
  = true /\
  exists s',
    GroupRateAdaptation Fixture.data_rate Fixture.phy_rate Fixture.code_rate
      Fixture.pdr Fixture.pow_int Fixture.add_basic_mode
      (Fixture.good_channel 1)
    = Done ("OfdmRate54Mbps"%string, s') /\
    m_GroupTxMode s' = "OfdmRate54Mbps"%string.
Proof.
  split; [vm_compute; reflexivity|]. split; [reflexivity|].
  split; [vm_compute; reflexivity|].
  destruct (throughput_branch_selects_first_maximum Fixture.data_rate
              Fixture.phy_rate Fixture.code_rate Fixture.pdr Fixture.pow_int
              Fixture.add_basic_mode (Fixture.good_channel 1)
              (Fixture.sample Fixture.peer 20) [] "OfdmRate6Mbps"%string
              eq_refl eq_refl eq_refl eq_refl)
    as (m & s' & Hrun & Hmode & _).
  exists s'. vm_compute in Hrun. injection Hrun as <- <-.
  split; vm_compute; reflexivity.
Defined.

Lemma fixture_thresholds_registered (m : WifiMode) :
  In m (m_bssBasicRateSet
          (populated Fixture.add_basic_mode (Fixture.manager 0))) ->
  GetSnrThreshold (populated Fixture.add_basic_mode (Fixture.manager 0)) m
  = Done (Fixture.thresholds m).
Proof.
  intros Hin. vm_compute in Hin.
  repeat (destruct Hin as [<-|Hin]; [vm_compute; reflexivity|]).
  contradiction.
Qed.

Lemma rts_mode_highest_threshold_below_last_snr_witness :
  exists v,
    DoGetRtsTxVector unit 17 (fun _ => 7%Z) (fun _ => false)
      (fun _ => 1%Z) 1 (fun _ => 1%Z) (fun _ => false)
      (populated Fixture.add_basic_mode (Fixture.manager 0))
      (mkStation tt 16)
    = Done v /\
    txMode v = "OfdmRate24Mbps"%string.
Proof.
  destruct (rts_mode_highest_threshold_below_last_snr unit 17
              (fun _ => 7%Z) (fun _ => false) (fun _ => 1%Z) 1
              (fun _ => 1%Z) (fun _ => false)
              (populated Fixture.add_basic_mode (Fixture.manager 0))
              (mkStation tt 16) Fixture.thresholds
              fixture_thresholds_registered)
    as (v & Hrun & _).
  exists v. split; [exact Hrun|].
  vm_compute in Hrun. injection Hrun as <-. reflexivity.
Defined.

Lemma UpdateInfo_new_peer_keeps_address_only_witness :
  m_infos (UpdateInfo Fixture.blank Fixture.peer Fixture.report_20dB
             (Fixture.manager 0))
  = [mkStaInfo Fixture.peer Fixture.blank] /\
  m_infos (UpdateInfo Fixture.blank Fixture.peer Fixture.report_20dB
             (UpdateInfo Fixture.blank Fixture.peer Fixture.report_20dB
                (Fixture.manager 0)))
  = [mkStaInfo Fixture.peer Fixture.report_20dB].
Proof.
  assert (Habs : forall e, In e (m_infos (Fixture.manager 0)) ->
                           addr e <> Fixture.peer)
    by (intros e He; destruct He).
  destruct (UpdateInfo_new_peer_keeps_address_only Fixture.blank
              (Fixture.manager 0) Fixture.peer Fixture.report_20dB Habs)
    as (Hfirst & _ & Hlater).
  split; [exact Hfirst | exact (Hlater Fixture.report_20dB)].
Defined.

(** C3 at a first report.  The first call for an unknown peer stores the
    address only; the second call, with the same arguments, writes the
    sample into the entry: the count stays at one and the content
    changes. *)
Theorem UpdateInfo_repeated_call_changes_entry :
  m_infos (UpdateInfo Fixture.blank Fixture.peer Fixture.report_20dB
             (Fixture.manager 0))
  = [mkStaInfo Fixture.peer Fixture.blank] /\
  m_infos (UpdateInfo Fixture.blank Fixture.peer Fixture.report_20dB
             (UpdateInfo Fixture.blank Fixture.peer Fixture.report_20dB
                (Fixture.manager 0)))
  = [mkStaInfo Fixture.peer Fixture.report_20dB] /\
  UpdateInfo Fixture.blank Fixture.peer Fixture.report_20dB
    (UpdateInfo Fixture.blank Fixture.peer Fixture.report_20dB
       (Fixture.manager 0))
  <> UpdateInfo Fixture.blank Fixture.peer Fixture.report_20dB
       (Fixture.manager 0).
Proof.
  split; [reflexivity|]. split; [reflexivity|].
  intros Heq.
  apply (f_equal (fun s => map (fun e => TotalPacket (info e)) (m_infos s)))
    in Heq.
  vm_compute in Heq. discriminate.
Qed.

(** *** Further runs of the engine on the fixture *)

Lemma SetupPhy_registers_every_mode_witness :
  In "OfdmRate24Mbps"%string OfdmRates /\
  exists x,
    GetSnrThreshold
      (SetupPhy Fixture.calculate_snr Fixture.base_setup_phy OfdmRates
         Fixture.unset) "OfdmRate24Mbps"%string
    = Done x /\
    (GetSnrThreshold Fixture.unset "OfdmRate24Mbps"%string = AssertFailed ->
     x = Fixture.calculate_snr "OfdmRate24Mbps"%string (m_ber Fixture.unset)).
Proof.
  assert (Hin : In "OfdmRate24Mbps"%string OfdmRates)
    by (vm_compute; tauto).
  split; [exact Hin|].
  exact (SetupPhy_registers_every_mode Fixture.calculate_snr
           Fixture.base_setup_phy OfdmRates Fixture.unset
           "OfdmRate24Mbps"%string Hin).
Defined.

Lemma SetupPhy_keeps_registered_thresholds_witness :
  GetSnrThreshold (Fixture.manager 0) "OfdmRate9Mbps"%string = Done 5 /\
  GetSnrThreshold
    (SetupPhy (fun _ _ => 100) Fixture.base_setup_phy OfdmRates
       (Fixture.manager 0)) "OfdmRate9Mbps"%string
  = Done 5.
Proof.
  split; [reflexivity|].
  apply (SetupPhy_keeps_registered_thresholds (fun _ _ => 100)
           Fixture.base_setup_phy OfdmRates (Fixture.manager 0)
           "OfdmRate9Mbps"%string 5).
  reflexivity.
Defined.

Lemma SetupPhy_then_rts_vector_witness :
  exists v,
    DoGetRtsTxVector unit 17 (fun _ => 7%Z) (fun _ => false) (fun _ => 1%Z) 1
      (fun _ => 1%Z) (fun _ => false)
      (SetupPhy Fixture.calculate_snr Fixture.base_setup_phy OfdmRates
         Fixture.unset)
      (mkStation tt 16)
    = Done v.
Proof.
  apply (SetupPhy_then_rts_vector unit 17 (fun _ => 7%Z) (fun _ => false)
           (fun _ => 1%Z) 1 (fun _ => 1%Z) (fun _ => false)
           Fixture.calculate_snr Fixture.base_setup_phy OfdmRates
           Fixture.unset (mkStation tt 16)).
  intros m Hm. vm_compute in Hm. destruct Hm as [<- | []].
  left. reflexivity.
Defined.

Lemma GroupRateAdaptation_populates_once_witness :
  exists m s',
    GroupRateAdaptation Fixture.data_rate Fixture.phy_rate Fixture.code_rate
      Fixture.pdr Fixture.pow_int Fixture.add_basic_mode
      (Fixture.good_channel 0)
    = Done (m, s') /\
    m_addBasicMode s' = true /\
    m_bssBasicRateSet (populated Fixture.add_basic_mode s')
    = m_bssBasicRateSet
        (populated Fixture.add_basic_mode (Fixture.good_channel 0)) /\
    m_infos s' = m_infos (Fixture.good_channel 0).
Proof.
  eexists. eexists. split; [vm_compute; reflexivity|].
  match goal with
  | |- m_addBasicMode ?s' = true /\ _ =>
      destruct (GroupRateAdaptation_populates_once Fixture.data_rate
                  Fixture.phy_rate Fixture.code_rate Fixture.pdr
                  Fixture.pow_int Fixture.add_basic_mode
                  (Fixture.good_channel 0) s' "OfdmRate54Mbps"%string)
        as (Hf & _ & Hc & Hi & _)
  end.
  - vm_compute. reflexivity.
  - split; [exact Hf|]. split; [exact Hc | exact Hi].
Defined.

Lemma group_mode_in_catalog_witness :
  exists m s',
    GroupRateAdaptation Fixture.data_rate Fixture.phy_rate Fixture.code_rate
      Fixture.pdr Fixture.pow_int Fixture.add_basic_mode
      (Fixture.good_channel 1)
    = Done (m, s') /\
    In m (m_bssBasicRateSet
            (populated Fixture.add_basic_mode (Fixture.good_channel 1))).
Proof.
  eexists. eexists. split; [vm_compute; reflexivity|].
  match goal with
  | |- In ?m _ =>
      apply (group_mode_in_catalog Fixture.data_rate Fixture.phy_rate
               Fixture.code_rate Fixture.pdr Fixture.pow_int
               Fixture.add_basic_mode (Fixture.good_channel 1)
               (set_GroupTxMode
                  (set_minSnr
                     (set_sum_min_snr
                        (populated Fixture.add_basic_mode
                           (Fixture.good_channel 1)) 20) 100) m) m)
  end.
  - right. reflexivity.
  - vm_compute. reflexivity.
Defined.

Lemma other_type_keeps_group_mode_witness :
  m_type (Fixture.good_channel 2) <> 0%Z /\
  m_type (Fixture.good_channel 2) <> 1%Z /\
  exists s',
    GroupRateAdaptation Fixture.data_rate Fixture.phy_rate Fixture.code_rate
      Fixture.pdr Fixture.pow_int Fixture.add_basic_mode
      (Fixture.good_channel 2)
    = Done (m_GroupTxMode (Fixture.good_channel 2), s') /\
    m_GroupTxMode s' = m_GroupTxMode (Fixture.good_channel 2).
Proof.
  split; [vm_compute; discriminate|]. split; [vm_compute; discriminate|].
  apply (other_type_keeps_group_mode Fixture.data_rate Fixture.phy_rate
           Fixture.code_rate Fixture.pdr Fixture.pow_int
           Fixture.add_basic_mode (Fixture.good_channel 2)
           (Fixture.sample Fixture.peer 20) []).
  - reflexivity.
  - vm_compute. reflexivity.
  - vm_compute. discriminate.
  - vm_compute. discriminate.
Defined.

Lemma statistics_after_recomputation_witness :
  exists m s',
    GroupRateAdaptation Fixture.data_rate Fixture.phy_rate Fixture.code_rate
      Fixture.pdr Fixture.pow_int Fixture.add_basic_mode
      (Fixture.good_channel 1)
    = Done (m, s') /\
    m_sum_min_snr s' = 20 /\ m_num s' = 0%Z.
Proof.
  eexists. eexists. split; [vm_compute; reflexivity|].
  match goal with
  | |- m_sum_min_snr ?s' = _ /\ _ =>
      destruct (statistics_after_recomputation Fixture.data_rate
                  Fixture.phy_rate Fixture.code_rate Fixture.pdr
                  Fixture.pow_int Fixture.add_basic_mode
                  (Fixture.good_channel 1) s' "OfdmRate54Mbps"%string
                  (Fixture.sample Fixture.peer 20) [])
        as (Hsum & Hnum)
  end.
  - reflexivity.
  - vm_compute. reflexivity.
  - split; [rewrite Hsum | rewrite Hnum]; vm_compute; reflexivity.
Defined.

Lemma averages_without_count_witness :
  m_num (construct (Fixture.good_channel 0)) = 0%Z /\
  Double.is_number (GetAvgMinSnrDb (construct (Fixture.good_channel 0)))
  = false /\
  Double.is_number (GetAvgTxMode (construct (Fixture.good_channel 0)))
  = false /\
  Double.is_number (GetAvgTxMcs (construct (Fixture.good_channel 0)))
  = false.
Proof.
  split; [reflexivity|].
  apply (averages_without_count (construct (Fixture.good_channel 0))).
  reflexivity.
Defined.

Lemma UpdateInfo_one_entry_per_peer_witness :
  NoDup (map addr (m_infos (Fixture.good_channel 0))) /\
  NoDup (map addr (m_infos (UpdateInfo Fixture.blank 7%Z Fixture.report_20dB
                              (Fixture.good_channel 0)))) /\
  List.length (m_infos (UpdateInfo Fixture.blank 7%Z Fixture.report_20dB
                          (Fixture.good_channel 0))) = 2%nat.
Proof.
  assert (Hnd : NoDup (map addr (m_infos (Fixture.good_channel 0))))
    by (vm_compute; constructor; [intros [] | constructor]).
  split; [exact Hnd|].
  destruct (UpdateInfo_one_entry_per_peer Fixture.blank
              (Fixture.good_channel 0) 7%Z Fixture.report_20dB Hnd)
    as (Hnd' & _ & Hlen).
  split; [exact Hnd' | exact Hlen].
Defined.

Lemma UpdateInfo_last_write_wins_witness :
  In Fixture.peer (map addr (m_infos (Fixture.good_channel 0))) /\
  UpdateInfo Fixture.blank Fixture.peer Fixture.report_20dB
    (UpdateInfo Fixture.blank Fixture.peer Fixture.blank
       (Fixture.good_channel 0))
  = UpdateInfo Fixture.blank Fixture.peer Fixture.report_20dB
      (Fixture.good_channel 0).
Proof.
  assert (Hin : In Fixture.peer (map addr (m_infos (Fixture.good_channel 0))))
    by (left; reflexivity).
  split; [exact Hin|].
  exact (UpdateInfo_last_write_wins Fixture.blank (Fixture.good_channel 0)
           Fixture.peer Fixture.blank Fixture.report_20dB Hin).
Defined.

Lemma first_report_not_used_witness :
  known Fixture.peer (m_infos (Fixture.manager 0)) = false /\
  GroupRateAdaptation Fixture.data_rate Fixture.phy_rate Fixture.code_rate
    Fixture.pdr Fixture.pow_int Fixture.add_basic_mode
    (UpdateInfo Fixture.blank Fixture.peer Fixture.report_20dB
       (Fixture.manager 0))
  = GroupRateAdaptation Fixture.data_rate Fixture.phy_rate Fixture.code_rate
      Fixture.pdr Fixture.pow_int Fixture.add_basic_mode
      (UpdateInfo Fixture.blank Fixture.peer Fixture.blank
         (Fixture.manager 0)).
Proof.
  split; [reflexivity|].
  apply (first_report_not_used Fixture.data_rate Fixture.phy_rate
           Fixture.code_rate Fixture.pdr Fixture.pow_int
           Fixture.add_basic_mode Fixture.blank (Fixture.manager 0)
           Fixture.peer Fixture.report_20dB Fixture.blank).
  reflexivity.
Defined.

End Sbra.

(** ** AdhocWifiMac *)

Module Adhoc.

Local Open Scope Z_scope.

(** The kinds of frame the predicates of [WifiMacHeader] tell apart. *)
Inductive WifiMacType : Type :=
| WIFI_MAC_CTL
| WIFI_MAC_MGT
| WIFI_MAC_DATA
| WIFI_MAC_QOSDATA
| WIFI_MAC_FEEDBACK.

Inductive QosAckPolicy : Type :=
| NORMAL_ACK
| NO_ACK.

(** [WifiMacHeader], with the fields the class sets or reads. *)
Record WifiMacHeader : Type := mkHeader {
  hdrType : WifiMacType;
  addr1 : Mac48Address;
  addr2 : Mac48Address;
  addr3 : Mac48Address;
  dsFrom : bool;
  dsTo : bool;
  qosAckPolicy : QosAckPolicy;
  qosEosp : bool;
  qosAmsdu : bool;
  qosTxopLimit : Z;
  qosTid : Z
}.

Definition IsCtl (h : WifiMacHeader) : bool :=
  match hdrType h with WIFI_MAC_CTL => true | _ => false end.

Definition IsData (h : WifiMacHeader) : bool :=
  match hdrType h with WIFI_MAC_DATA | WIFI_MAC_QOSDATA => true | _ => false end.

Definition IsQosData (h : WifiMacHeader) : bool :=
  match hdrType h with WIFI_MAC_QOSDATA => true | _ => false end.

Definition IsQosAmsdu (h : WifiMacHeader) : bool := qosAmsdu h.

Definition IsFeedback (h : WifiMacHeader) : bool :=
  match hdrType h with WIFI_MAC_FEEDBACK => true | _ => false end.

(** A header as its constructor leaves it ([WifiMacHeader hdr;]). *)
Definition blank_header : WifiMacHeader :=
  mkHeader WIFI_MAC_DATA 0 0 0 false false NORMAL_ACK false false 0 0.

(** Access categories, the index of [m_edca]. *)
Inductive AcIndex : Type :=
| AC_BE
| AC_BK
| AC_VI
| AC_VO.

(** The attributes of [GetTypeId]. *)
Record Attributes : Type := mkAttributes {
  m_fbtype : Z;
  m_feedbackPeriod : Z;
  m_alpha : float;
  m_beta : float;
  m_percentile : float;
  m_eta : float;
  m_delta : float;
  m_rho : float
}.

Definition default_attributes : Attributes :=
  mkAttributes 0 100 0.5 0.5 0.9 0.1 0.1 0.1.

(** *** A fixture

    Packets that are either data with a QoS tag or a feedback report, the
    usual mapping of traffic identifiers to access categories, and group
    addresses told by the low bit of the first octet. *)

Module Fixture.

Inductive packet : Type :=
| Data (tid : Z)
| Feedback (i : rxInfo).

Definition tid_of (p : packet) : Z :=
  match p with Data tid => tid | Feedback _ => 8 end.

Definition ac_of (tid : Z) : AcIndex :=
  match tid with
  | 1 | 2 => AC_BK
  | 4 | 5 => AC_VI
  | 6 | 7 => AC_VO
  | _ => AC_BE
  end.

Definition is_group (a : Mac48Address) : bool := Z.testbit a 40.

Definition rx_info (fbtype : Z) (percentile alpha beta eta delta rho : float)
  : rxInfo := mkRxInfo 20 15 1 10.

Definition report_of (p : packet) : rxInfo :=
  match p with Feedback i => i | Data _ => mkRxInfo 0 0 0 0 end.

Definition broadcast : Mac48Address := 0xFFFFFFFFFFFF.
Definition self : Mac48Address := 0x000000000001.
Definition sender : Mac48Address := 0x000000000002.
Definition other : Mac48Address := 0x000000000003.

(** A group-addressed data frame from [from], plain or as a QoS A-MSDU. *)
Definition group_data (from : Mac48Address) : WifiMacHeader :=
  mkHeader WIFI_MAC_DATA broadcast from from false false NORMAL_ACK false
    false 0 0.

Definition group_amsdu (from : Mac48Address) : WifiMacHeader :=
  mkHeader WIFI_MAC_QOSDATA broadcast from from false false NORMAL_ACK false
    true 0 0.

End Fixture.

Section Mac.

(** What the class uses and the two source files do not define. *)

Variable Packet : Type.

(** [QosUtilsGetTidForPacket] ([uint8_t]) and [QosUtilsMapTidToAc]. *)
Variable QosUtilsGetTidForPacket : Packet -> Z.
Variable QosUtilsMapTidToAc : Z -> AcIndex.

(** [Mac48Address::IsGroup]. *)
Variable IsGroup : Mac48Address -> bool.

(** [m_phy->GetNModes ()] and [m_phy->GetMode (i)], as a list. *)
Variable phy_modes : list WifiMode.

(** [m_low->GetRxInfo (...)]: the receive-side accumulation of the lower
    layer, read through its arguments only. *)
Variable GetRxInfo :
  Z -> float -> float -> float -> float -> float -> float -> rxInfo.

(** [Create<Packet> ()] followed by [AddHeader] of a [FeedbackHeader]
    with the four fields set, and [RemoveHeader] followed by the four
    getters. *)
Variable feedback_packet : rxInfo -> Packet.
Variable RemoveFeedbackHeader : Packet -> rxInfo.

(** The [info] member of the default-initialised local of
    [SbraWifiManager::UpdateInfo]. *)
Variable stainfo_info : rxInfo.

(** What the class asks of its collaborators, in the order of the calls. *)
Inductive effect : Type :=
| AddSupportedMode (to : Mac48Address) (mode : WifiMode)
| RecordDisassociated (to : Mac48Address)
| LowSetAlpha (alpha : float)
| LowSetEDR (eta delta rho : float)
| DcaQueue (packet : Packet) (hdr : WifiMacHeader)
| EdcaQueue (ac : AcIndex) (packet : Packet) (hdr : WifiMacHeader)
| ForwardUp (packet : Packet) (from to : Mac48Address)
| DeaggregateAmsduAndForward (packet : Packet) (hdr : WifiMacHeader)
| RegularReceive (packet : Packet) (hdr : WifiMacHeader)
| Schedule (ms : Z).

(** The members of the class, the station manager it feeds, the calls it
    has made and the number of [SendFeedback] events the simulator holds. *)
Record AdhocWifiMac : Type := mkMac {
  attributes : Attributes;
  m_qosSupported : bool;
  address : Mac48Address;
  bssid : Mac48Address;
  m_initialize : bool;
  m_setMacLowValue : bool;
  m_srcAddress : Mac48Address;
  m_rxInfoSet : rxInfo;
  m_rxInfoGet : rxInfo;
  stationManager : Sbra.SbraWifiManager;
  effects : list effect;
  pending : nat
}.

Definition set_initialize (s : AdhocWifiMac) (b : bool) : AdhocWifiMac :=
  mkMac (attributes s) (m_qosSupported s) (address s) (bssid s) b
    (m_setMacLowValue s) (m_srcAddress s) (m_rxInfoSet s) (m_rxInfoGet s)
    (stationManager s) (effects s) (pending s).

Definition set_srcAddress (s : AdhocWifiMac) (a : Mac48Address) : AdhocWifiMac :=
  mkMac (attributes s) (m_qosSupported s) (address s) (bssid s)
    (m_initialize s) (m_setMacLowValue s) a (m_rxInfoSet s) (m_rxInfoGet s)
    (stationManager s) (effects s) (pending s).

Definition set_rxInfoSet (s : AdhocWifiMac) (i : rxInfo) : AdhocWifiMac :=
  mkMac (attributes s) (m_qosSupported s) (address s) (bssid s)
    (m_initialize s) (m_setMacLowValue s) (m_srcAddress s) i (m_rxInfoGet s)
    (stationManager s) (effects s) (pending s).

Definition set_rxInfoGet (s : AdhocWifiMac) (i : rxInfo) : AdhocWifiMac :=
  mkMac (attributes s) (m_qosSupported s) (address s) (bssid s)
    (m_initialize s) (m_setMacLowValue s) (m_srcAddress s) (m_rxInfoSet s) i
    (stationManager s) (effects s) (pending s).

Definition set_stationManager (s : AdhocWifiMac) (m : Sbra.SbraWifiManager)
  : AdhocWifiMac :=
  mkMac (attributes s) (m_qosSupported s) (address s) (bssid s)
    (m_initialize s) (m_setMacLowValue s) (m_srcAddress s) (m_rxInfoSet s)
    (m_rxInfoGet s) m (effects s) (pending s).

Definition set_pending (s : AdhocWifiMac) (n : nat) : AdhocWifiMac :=
  mkMac (attributes s) (m_qosSupported s) (address s) (bssid s)
    (m_initialize s) (m_setMacLowValue s) (m_srcAddress s) (m_rxInfoSet s)
    (m_rxInfoGet s) (stationManager s) (effects s) n.

(** One more call on a collaborator. *)
Definition emit (s : AdhocWifiMac) (e : list effect) : AdhocWifiMac :=
  mkMac (attributes s) (m_qosSupported s) (address s) (bssid s)
    (m_initialize s) (m_setMacLowValue s) (m_srcAddress s) (m_rxInfoSet s)
    (m_rxInfoGet s) (stationManager s) (effects s ++ e) (pending s).

(** The constructor: both flags cleared, a period of 100; the source
    address is the all-zero address of [Mac48Address ()], the two [rxInfo]
    members are whatever default initialisation leaves in them. *)
Definition construct (qos : bool) (self : Mac48Address)
  (manager : Sbra.SbraWifiManager) (rxSet rxGet : rxInfo) : AdhocWifiMac :=
  mkMac default_attributes qos self self false false 0 rxSet rxGet manager
    [] 0%nat.

(** [m_stationManager->IsBrandNew (to)]: nothing has been recorded about
    the station yet. *)
Definition IsBrandNew (s : AdhocWifiMac) (to : Mac48Address) : bool :=
  negb (existsb (fun e => match e with
                          | RecordDisassociated a => (a =? to)
                          | _ => false
                          end) (effects s)).

Definition Enqueue (packet : Packet) (to : Mac48Address) (s : AdhocWifiMac)
  : outcome AdhocWifiMac :=
  let s :=
    if IsBrandNew s to
    then emit s (map (AddSupportedMode to) phy_modes ++ [RecordDisassociated to])
    else s in
  let hdr := blank_header in
  let tid := 0 in
  let '(hdr, tid) :=
    if m_qosSupported s then
      let tid := wrap 8 (QosUtilsGetTidForPacket packet) in
      let tid := if 7 <=? tid then 0 else tid in
      (mkHeader WIFI_MAC_QOSDATA (addr1 hdr) (addr2 hdr) (addr3 hdr)
         (dsFrom hdr) (dsTo hdr) NORMAL_ACK false false 0 tid, tid)
    else
      (mkHeader WIFI_MAC_DATA (addr1 hdr) (addr2 hdr) (addr3 hdr)
         (dsFrom hdr) (dsTo hdr) (qosAckPolicy hdr) (qosEosp hdr)
         (qosAmsdu hdr) (qosTxopLimit hdr) (qosTid hdr), tid) in
  let hdr :=
    mkHeader (hdrType hdr) to (address s) (bssid s) false false
      (qosAckPolicy hdr) (qosEosp hdr) (qosAmsdu hdr) (qosTxopLimit hdr)
      (qosTid hdr) in
  let s :=
    if m_initialize s then s
    else
      set_initialize
        (emit s [LowSetAlpha (m_alpha (attributes s));
                 LowSetEDR (m_eta (attributes s)) (m_delta (attributes s))
                           (m_rho (attributes s))])
        true in
  if m_qosSupported s then
    if tid <? 8
    then Done (emit s [EdcaQueue (QosUtilsMapTidToAc tid) packet hdr])
    else AssertFailed
  else Done (emit s [DcaQueue packet hdr]).

Definition SendFeedback (s : AdhocWifiMac) : AdhocWifiMac :=
  let hdr :=
    mkHeader WIFI_MAC_FEEDBACK (m_srcAddress s) (address s) (bssid s)
      false false (qosAckPolicy blank_header) (qosEosp blank_header)
      (qosAmsdu blank_header) (qosTxopLimit blank_header)
      (qosTid blank_header) in
  let a := attributes s in
  let s :=
    set_rxInfoGet s
      (GetRxInfo (m_fbtype a) (m_percentile a) (m_alpha a) (m_beta a)
                 (m_eta a) (m_delta a) (m_rho a)) in
  let packet := feedback_packet (m_rxInfoGet s) in
  let s := emit s [DcaQueue packet hdr] in
  set_pending (emit s [Schedule (m_feedbackPeriod a)]) (S (pending s)).

Definition Receive (packet : Packet) (hdr : WifiMacHeader) (s : AdhocWifiMac)
  : outcome AdhocWifiMac :=
  if IsCtl hdr then AssertFailed
  else
    let from := addr2 hdr in
    let to := addr1 hdr in
    if IsData hdr then
      if IsQosData hdr && IsQosAmsdu hdr then
        Done (emit s [DeaggregateAmsduAndForward packet hdr])
      else if IsGroup to then
        let s :=
          if m_initialize s then s
          else SendFeedback (set_initialize (set_srcAddress s from) true) in
        Done (emit s [ForwardUp packet from to])
      else Done (emit s [ForwardUp packet from to])
    else if IsFeedback hdr then
      let s := set_rxInfoSet s (RemoveFeedbackHeader packet) in
      Done (set_stationManager s
              (Sbra.UpdateInfo stainfo_info from (m_rxInfoSet s)
                 (stationManager s)))
    else Done (emit s [RegularReceive packet hdr]).

(** What the simulator and the neighbouring layers do to the MAC. *)
Inductive event : Type :=
| EvEnqueue (packet : Packet) (to : Mac48Address)
| EvReceive (packet : Packet) (hdr : WifiMacHeader)
| EvTimer.

(** A timer event runs [SendFeedback] when the simulator holds one, and
    is nothing otherwise. *)
Definition step (s : AdhocWifiMac) (e : event) : outcome AdhocWifiMac :=
  match e with
  | EvEnqueue packet to => Enqueue packet to s
  | EvReceive packet hdr => Receive packet hdr s
  | EvTimer =>
      match pending s with
      | O => Done s
      | S n => Done (SendFeedback (set_pending s n))
      end
  end.

Fixpoint run (evs : list event) (s : AdhocWifiMac) : outcome AdhocWifiMac :=
  match evs with
  | [] => Done s
  | e :: evs' => s' <- step s e ;; run evs' s'
  end.

(** Every event but the reception of a control frame, which [Receive]
    asserts not to get. *)
Definition receivable (e : event) : bool :=
  match e with
  | EvReceive _ hdr => negb (IsCtl hdr)
  | _ => true
  end.

(** The destinations of the feedback frames among some calls. *)
Fixpoint feedback_destinations (l : list effect) : list Mac48Address :=
  match l with
  | [] => []
  | DcaQueue _ hdr :: l' =>
      if IsFeedback hdr then addr1 hdr :: feedback_destinations l'
      else feedback_destinations l'
  | _ :: l' => feedback_destinations l'
  end.

(** *** Facts about the MAC *)

Lemma feedback_destinations_app (l1 l2 : list effect) :
  feedback_destinations (l1 ++ l2)
  = feedback_destinations l1 ++ feedback_destinations l2.
Proof.
  induction l1 as [|e l1 IH]; [reflexivity|].
  destruct e; simpl; try exact IH.
  destruct (IsFeedback hdr); simpl; rewrite IH; reflexivity.
Qed.

Lemma feedback_destinations_supported (to : Mac48Address) (l : list WifiMode) :
  feedback_destinations (map (AddSupportedMode to) l) = [].
Proof. induction l as [|m l IH]; [reflexivity | exact IH]. Qed.

(** [Enqueue] never reaches a failing assertion: the traffic identifier
    it checks against 8 is below 7 by then. *)
Lemma Enqueue_done (packet : Packet) (to : Mac48Address) (s : AdhocWifiMac) :
  exists new,
    Enqueue packet to s
    = Done (mkMac (attributes s) (m_qosSupported s) (address s) (bssid s)
              true (m_setMacLowValue s) (m_srcAddress s) (m_rxInfoSet s)
              (m_rxInfoGet s) (stationManager s) (effects s ++ new)
              (pending s)) /\
    feedback_destinations new = [].
Proof.
  destruct s as [a q self bs ini sml src rs rg sm eff pn].
  unfold Enqueue.
  destruct (IsBrandNew _ to); destruct q; destruct ini;
    cbn [m_qosSupported m_initialize emit set_initialize attributes address
         bssid m_setMacLowValue m_srcAddress m_rxInfoSet m_rxInfoGet
         stationManager effects pending];
    try (destruct (7 <=? wrap 8 (QosUtilsGetTidForPacket packet)) eqn:Ht;
         [ change (0 <? 8) with true
         | assert (Hlt : (wrap 8 (QosUtilsGetTidForPacket packet) <? 8) = true)
             by (apply Z.ltb_lt; apply Z.leb_gt in Ht; lia);
           rewrite Hlt ]);
    cbv iota; unfold emit, set_initialize;
    cbn [m_qosSupported m_initialize attributes address
         bssid m_setMacLowValue m_srcAddress m_rxInfoSet m_rxInfoGet
         stationManager effects pending];
    rewrite <- ?app_assoc;
    (eexists; split; [reflexivity|]);
    rewrite ?feedback_destinations_app, ?feedback_destinations_supported;
    reflexivity.
Qed.

(** C6, as the code has it.  On a QoS-enabled enqueue of a packet whose
    traffic identifier is 8 or more, the identifier is set back to 0
    before it is used: the packet is queued, with identifier 0 in its
    header, on the queue of the access category of identifier 0, and the
    assertion [tid < 8] that follows holds. *)
Theorem Enqueue_invalid_tid_reverts_to_zero (packet : Packet)
  (to : Mac48Address) (s : AdhocWifiMac) :
  m_qosSupported s = true ->
  8 <= wrap 8 (QosUtilsGetTidForPacket packet) ->
  exists s' before hdr,
    Enqueue packet to s = Done s' /\
    effects s' = before ++ [EdcaQueue (QosUtilsMapTidToAc 0) packet hdr] /\
    hdrType hdr = WIFI_MAC_QOSDATA /\ qosTid hdr = 0 /\ addr1 hdr = to.
Proof.
  intros Hq Htid.
  assert (Ht : (7 <=? wrap 8 (QosUtilsGetTidForPacket packet)) = true)
    by (apply Z.leb_le; lia).
  destruct s as [a q self bs ini sml src rs rg sm eff pn].
  cbn [m_qosSupported] in Hq. subst q.
  unfold Enqueue.
  destruct (IsBrandNew _ to); destruct ini;
    cbn [m_qosSupported m_initialize emit set_initialize attributes address
         bssid m_setMacLowValue m_srcAddress m_rxInfoSet m_rxInfoGet
         stationManager effects pending];
    rewrite Ht; change (0 <? 8) with true; cbv iota;
    unfold emit, set_initialize;
    cbn [m_qosSupported m_initialize attributes address
         bssid m_setMacLowValue m_srcAddress m_rxInfoSet m_rxInfoGet
         stationManager effects pending];
    eexists; eexists; eexists;
    (split; [reflexivity|]); (split; [reflexivity|]);
    repeat split.
Qed.

(** Once [m_initialize] is set, no event clears it or changes
    [m_srcAddress]; the feedback frames an event queues go to
    [m_srcAddress]; the simulator does not lose a pending [SendFeedback]. *)
Lemma step_keeps_destination (s s' : AdhocWifiMac) (e : event) :
  m_initialize s = true ->
  step s e = Done s' ->
  m_initialize s' = true /\
  m_srcAddress s' = m_srcAddress s /\
  (pending s <= pending s')%nat /\
  exists new,
    effects s' = effects s ++ new /\
    Forall (eq (m_srcAddress s)) (feedback_destinations new).
Proof.
  intros Hini Hstep. destruct e as [packet to | packet hdr |]; simpl in Hstep.
  - destruct (Enqueue_done packet to s) as (new & Heq & Hnew).
    rewrite Heq in Hstep. injection Hstep as <-. simpl.
    repeat split; try reflexivity.
    exists new. split; [reflexivity|]. rewrite Hnew. constructor.
  - unfold Receive in Hstep. rewrite Hini in Hstep.
    destruct (IsCtl hdr); [discriminate|].
    destruct (IsData hdr).
    + destruct (IsQosData hdr && IsQosAmsdu hdr);
        [|destruct (IsGroup (addr1 hdr))];
        injection Hstep as <-; simpl;
        (repeat split; try assumption; try reflexivity);
        (eexists; split; [reflexivity|]); simpl; constructor.
    + destruct (IsFeedback hdr); injection Hstep as <-; simpl;
        (repeat split; try assumption; try reflexivity).
      * exists []. split; [symmetry; apply app_nil_r | constructor].
      * eexists. split; [reflexivity|]. simpl. constructor.
  - destruct (pending s) as [|n] eqn:Hp.
    + injection Hstep as <-. rewrite Hp.
      repeat split; try assumption; try reflexivity.
      exists []. split; [symmetry; apply app_nil_r | constructor].
    + injection Hstep as <-. simpl.
      repeat split; try assumption; try reflexivity.
      exists [DcaQueue
                (feedback_packet
                   (GetRxInfo (m_fbtype (attributes s))
                      (m_percentile (attributes s)) (m_alpha (attributes s))
                      (m_beta (attributes s)) (m_eta (attributes s))
                      (m_delta (attributes s)) (m_rho (attributes s))))
                (mkHeader WIFI_MAC_FEEDBACK (m_srcAddress s) (address s)
                   (bssid s) false false NORMAL_ACK false false 0 0);
              Schedule (m_feedbackPeriod (attributes s))].
      split; [rewrite <- app_assoc; reflexivity|].
      simpl. constructor; [reflexivity | constructor].
Qed.

Lemma run_keeps_destination (evs : list event) (s s' : AdhocWifiMac) :
  m_initialize s = true ->
  run evs s = Done s' ->
  m_initialize s' = true /\
  m_srcAddress s' = m_srcAddress s /\
  (pending s <= pending s')%nat /\
  exists new,
    effects s' = effects s ++ new /\
    Forall (eq (m_srcAddress s)) (feedback_destinations new).
Proof.
  revert s. induction evs as [|e evs IH]; intros s Hini Hrun; simpl in Hrun.
  - injection Hrun as <-. repeat split; try assumption; try reflexivity.
    exists []. split; [symmetry; apply app_nil_r | constructor].
  - destruct (step s e) as [s1|] eqn:Hstep; [|discriminate]. cbn [bind] in Hrun.
    destruct (step_keeps_destination s s1 e Hini Hstep)
      as (Hini1 & Hsrc1 & Hp1 & new1 & Heff1 & Hall1).
    destruct (IH s1 Hini1 Hrun) as (Hini' & Hsrc' & Hp' & new & Heff & Hall).
    repeat split.
    + exact Hini'.
    + rewrite Hsrc'. exact Hsrc1.
    + lia.
    + exists (new1 ++ new). split.
      * rewrite Heff, Heff1, app_assoc. reflexivity.
      * rewrite feedback_destinations_app. apply Forall_app. split.
        -- exact Hall1.
        -- rewrite <- Hsrc1. exact Hall.
Qed.

Lemma step_done (s : AdhocWifiMac) (e : event) :
  receivable e = true -> exists s', step s e = Done s'.
Proof.
  intros Hrec. destruct e as [packet to | packet hdr |]; simpl.
  - destruct (Enqueue_done packet to s) as (new & Heq & _).
    rewrite Heq. eexists. reflexivity.
  - simpl in Hrec. apply negb_true_iff in Hrec.
    unfold Receive. rewrite Hrec.
    destruct (IsData hdr);
      [destruct (IsQosData hdr && IsQosAmsdu hdr);
       [|destruct (IsGroup (addr1 hdr))]
      |destruct (IsFeedback hdr)];
      eexists; reflexivity.
  - destruct (pending s); eexists; reflexivity.
Qed.

Lemma run_done (evs : list event) (s : AdhocWifiMac) :
  forallb receivable evs = true -> exists s', run evs s = Done s'.
Proof.
  revert s. induction evs as [|e evs IH]; intros s Hall; simpl.
  - eexists. reflexivity.
  - simpl in Hall. apply andb_prop in Hall. destruct Hall as [He Hevs].
    destruct (step_done s e He) as (s1 & ->). cbn [bind].
    apply IH. exact Hevs.
Qed.

(** C5, as the code has it.  A group-addressed data frame that is not a
    QoS A-MSDU and arrives while [m_initialize] is still clear makes its
    sender the feedback destination, sets the flag, sends the first
    feedback frame to that sender and schedules the next one.  From then
    on, whatever is received or enqueued and however often the timer
    fires, the destination stays the same, every feedback frame goes to
    it, and a next [SendFeedback] is always pending; the events run to
    their end unless a control frame is received. *)
Theorem first_group_frame_fixes_feedback_destination (packet : Packet)
  (hdr : WifiMacHeader) (s : AdhocWifiMac) :
  m_initialize s = false ->
  IsData hdr = true ->
  IsQosData hdr && IsQosAmsdu hdr = false ->
  IsGroup (addr1 hdr) = true ->
  exists s1 fb fbhdr,
    Receive packet hdr s = Done s1 /\
    m_srcAddress s1 = addr2 hdr /\
    m_initialize s1 = true /\
    effects s1 = effects s ++ [DcaQueue fb fbhdr;
                               Schedule (m_feedbackPeriod (attributes s));
                               ForwardUp packet (addr2 hdr) (addr1 hdr)] /\
    IsFeedback fbhdr = true /\ addr1 fbhdr = addr2 hdr /\
    pending s1 = S (pending s) /\
    (forall evs,
        forallb receivable evs = true -> exists s2, run evs s1 = Done s2) /\
    (forall evs s2,
        run evs s1 = Done s2 ->
        m_srcAddress s2 = addr2 hdr /\
        (1 <= pending s2)%nat /\
        exists new,
          effects s2 = effects s1 ++ new /\
          Forall (eq (addr2 hdr)) (feedback_destinations new)).
Proof.
  intros Hini Hdata Hamsdu Hgroup.
  assert (Hctl : IsCtl hdr = false).
  { unfold IsData, IsCtl in *. destruct (hdrType hdr); congruence. }
  eexists. eexists. eexists.
  split.
  { unfold Receive. rewrite Hctl, Hdata, Hamsdu, Hgroup, Hini. reflexivity. }
  split; [reflexivity|]. split; [reflexivity|].
  split.
  { simpl. rewrite <- !app_assoc. reflexivity. }
  split; [reflexivity|]. split; [reflexivity|]. split; [reflexivity|].
  split; [intros evs Hall; apply run_done; exact Hall|].
  intros evs s2 Hrun.
  apply run_keeps_destination in Hrun; [|reflexivity].
  destruct Hrun as (_ & Hsrc & Hp & new & Heff & Hall).
  split; [exact Hsrc|]. split.
  - simpl in Hp. lia.
  - exists new. split; [exact Heff | exact Hall].
Qed.

(** *** Further facts about the MAC *)

(** The calls that configure the lower layer. *)
Definition configures (e : effect) : bool :=
  match e with
  | LowSetAlpha _ | LowSetEDR _ _ _ => true
  | _ => false
  end.

(** The traffic identifier [Enqueue] writes for an extracted one. *)
Definition checked_tid (tid : Z) : Z := if 7 <=? tid then 0 else tid.

Definition is_timer (e : event) : bool :=
  match e with EvTimer => true | _ => false end.

(** Whether a received frame is one that captures its sender. *)
Definition captures (hdr : WifiMacHeader) (s : AdhocWifiMac) : bool :=
  negb (m_initialize s) && IsData hdr
  && negb (IsQosData hdr && IsQosAmsdu hdr) && IsGroup (addr1 hdr).

(** All that [Enqueue] does: it registers a brand-new destination,
    configures the lower layer when [m_initialize] is clear, and queues
    the packet under the header it built. *)
Lemma Enqueue_shape (packet : Packet) (to : Mac48Address) (s : AdhocWifiMac) :
  let assoc :=
    if IsBrandNew s to
    then map (AddSupportedMode to) phy_modes ++ [RecordDisassociated to]
    else [] in
  let cfg :=
    if m_initialize s then []
    else [LowSetAlpha (m_alpha (attributes s));
          LowSetEDR (m_eta (attributes s)) (m_delta (attributes s))
                    (m_rho (attributes s))] in
  let tid :=
    if m_qosSupported s
    then checked_tid (wrap 8 (QosUtilsGetTidForPacket packet)) else 0 in
  let hdr :=
    mkHeader (if m_qosSupported s then WIFI_MAC_QOSDATA else WIFI_MAC_DATA)
      to (address s) (bssid s) false false NORMAL_ACK false false 0 tid in
  let queued :=
    if m_qosSupported s
    then EdcaQueue (QosUtilsMapTidToAc tid) packet hdr
    else DcaQueue packet hdr in
  Enqueue packet to s
  = Done (mkMac (attributes s) (m_qosSupported s) (address s) (bssid s)
            true (m_setMacLowValue s) (m_srcAddress s) (m_rxInfoSet s)
            (m_rxInfoGet s) (stationManager s)
            (effects s ++ assoc ++ cfg ++ [queued]) (pending s)).
Proof.
  destruct s as [a q self bs ini sml src rs rg sm eff pn].
  unfold Enqueue, checked_tid.
  destruct (IsBrandNew _ to); destruct q; destruct ini;
    cbn [m_qosSupported m_initialize emit set_initialize attributes address
         bssid m_setMacLowValue m_srcAddress m_rxInfoSet m_rxInfoGet
         stationManager effects pending];
    try (destruct (7 <=? wrap 8 (QosUtilsGetTidForPacket packet)) eqn:Ht;
         [ change (0 <? 8) with true
         | assert (Hlt : (wrap 8 (QosUtilsGetTidForPacket packet) <? 8) = true)
             by (apply Z.ltb_lt; apply Z.leb_gt in Ht; lia);
           rewrite Hlt ]);
    cbv iota; unfold emit, set_initialize;
    cbn [m_qosSupported m_initialize attributes address
         bssid m_setMacLowValue m_srcAddress m_rxInfoSet m_rxInfoGet
         stationManager effects pending hdrType addr1 addr2 addr3 dsFrom dsTo
         qosAckPolicy qosEosp qosAmsdu qosTxopLimit qosTid blank_header];
    rewrite <- ?app_assoc; cbn [app]; reflexivity.
Qed.

Lemma filter_configures_supported (to : Mac48Address) (l : list WifiMode) :
  filter configures (map (AddSupportedMode to) l) = [].
Proof. induction l as [|m l IH]; [reflexivity | exact IH]. Qed.

(** X18.  [Enqueue] always returns, and the header it queues carries the
    destination, the address of the node and the BSSID; with QoS the
    frame goes to the queue of the category of its traffic identifier,
    which is the extracted one below 7 and 0 from 7 on, so always below
    7; without QoS it is a plain data frame on the DCA queue. *)
Theorem Enqueue_queues_checked_header (packet : Packet) (to : Mac48Address)
  (s : AdhocWifiMac) :
  exists s' before hdr,
    Enqueue packet to s = Done s' /\
    effects s' =
    before ++ [if m_qosSupported s
               then EdcaQueue (QosUtilsMapTidToAc (qosTid hdr)) packet hdr
               else DcaQueue packet hdr] /\
    addr1 hdr = to /\ addr2 hdr = address s /\ addr3 hdr = bssid s /\
    hdrType hdr =
    (if m_qosSupported s then WIFI_MAC_QOSDATA else WIFI_MAC_DATA) /\
    qosTid hdr =
    (if m_qosSupported s
     then checked_tid (wrap 8 (QosUtilsGetTidForPacket packet)) else 0) /\
    0 <= qosTid hdr < 7.
Proof.
  pose proof (Enqueue_shape packet to s) as Hshape. cbv zeta in Hshape.
  eexists. eexists.
  exists (mkHeader
            (if m_qosSupported s then WIFI_MAC_QOSDATA else WIFI_MAC_DATA)
            to (address s) (bssid s) false false NORMAL_ACK false false 0
            (if m_qosSupported s
             then checked_tid (wrap 8 (QosUtilsGetTidForPacket packet))
             else 0)).
  split; [exact Hshape|].
  split; [cbn [effects qosTid]; rewrite !app_assoc; reflexivity|].
  cbn [addr1 addr2 addr3 hdrType qosTid].
  repeat split; try reflexivity;
    destruct (m_qosSupported s); unfold checked_tid, wrap; try lia;
    destruct (Z.leb_spec 7 (QosUtilsGetTidForPacket packet mod 2 ^ 8));
    try lia;
    pose proof (Z.mod_pos_bound (QosUtilsGetTidForPacket packet) (2 ^ 8));
    lia.
Qed.

(** X19.  [Enqueue] configures the lower layer exactly when
    [m_initialize] is clear, with [SetAlpha] then [SetEDR] on the
    attributes, and leaves the flag set. *)
Theorem Enqueue_configures_when_flag_clear (packet : Packet)
  (to : Mac48Address) (s : AdhocWifiMac) :
  exists s' new,
    Enqueue packet to s = Done s' /\
    effects s' = effects s ++ new /\
    m_initialize s' = true /\
    filter configures new =
    (if m_initialize s then []
     else [LowSetAlpha (m_alpha (attributes s));
           LowSetEDR (m_eta (attributes s)) (m_delta (attributes s))
                     (m_rho (attributes s))]).
Proof.
  pose proof (Enqueue_shape packet to s) as Hshape. cbv zeta in Hshape.
  eexists. eexists.
  split; [exact Hshape|]. split; [reflexivity|]. split; [reflexivity|].
  rewrite !filter_app.
  destruct (IsBrandNew s to);
    rewrite ?filter_app, ?filter_configures_supported;
    destruct (m_initialize s); destruct (m_qosSupported s); reflexivity.
Qed.

Ltac receive_cases H s hdr :=
  unfold Receive in H;
  destruct (IsCtl hdr) eqn:Hctl; [discriminate H|];
  destruct (IsData hdr) eqn:Hdata;
  [ destruct (IsQosData hdr && IsQosAmsdu hdr) eqn:Hamsdu;
    [ | destruct (IsGroup (addr1 hdr)) eqn:Hgroup;
        [ destruct (m_initialize s) eqn:Hini | ] ]
  | destruct (IsFeedback hdr) eqn:Hfb ];
  injection H as <-.

(** X20.  What a reception does to the feedback destination: a frame
    that is not a control frame is always taken, and it changes
    [m_srcAddress], sends a feedback frame and schedules one only if it
    is a group-addressed data frame, not a QoS A-MSDU, received with
    [m_initialize] clear; every other frame leaves the destination, the
    flag and the pending events as they were and queues no feedback. *)
Theorem Receive_captures_only_first_group_frame (packet : Packet)
  (hdr : WifiMacHeader) (s : AdhocWifiMac) :
  IsCtl hdr = false ->
  exists s' new,
    Receive packet hdr s = Done s' /\
    effects s' = effects s ++ new /\
    m_srcAddress s' = (if captures hdr s then addr2 hdr else m_srcAddress s) /\
    m_initialize s' = m_initialize s || captures hdr s /\
    pending s' = (if captures hdr s then S (pending s) else pending s) /\
    feedback_destinations new = (if captures hdr s then [addr2 hdr] else []).
Proof.
  intros Hctl. unfold captures, Receive. rewrite Hctl.
  destruct (IsData hdr);
    [ destruct (IsQosData hdr && IsQosAmsdu hdr);
      [ | destruct (IsGroup (addr1 hdr)); [ destruct (m_initialize s) eqn:Hini | ] ]
    | destruct (IsFeedback hdr) ];
    rewrite ?andb_false_r, ?andb_true_r, ?orb_false_r; cbn [negb andb];
    try (eexists; exists []; rewrite app_nil_r;
         repeat split; reflexivity);
    try (eexists; eexists; split; [reflexivity|]; cbn;
         rewrite <- ?app_assoc; cbn [app];
         repeat split; try reflexivity; try assumption; fail).
Qed.

Lemma step_no_configuration (s s' : AdhocWifiMac) (e : event) :
  m_initialize s = true ->
  step s e = Done s' ->
  m_initialize s' = true /\
  exists new, effects s' = effects s ++ new /\ filter configures new = [].
Proof.
  intros Hini Hstep. destruct e as [packet to | packet hdr |]; simpl in Hstep.
  - pose proof (Enqueue_shape packet to s) as Hshape. cbv zeta in Hshape.
    rewrite Hshape in Hstep. injection Hstep as <-.
    split; [reflexivity|]. eexists. split; [reflexivity|].
    rewrite Hini, !filter_app.
    destruct (IsBrandNew s to);
      rewrite ?filter_app, ?filter_configures_supported;
      destruct (m_qosSupported s); reflexivity.
  - unfold Receive in Hstep. rewrite Hini in Hstep.
    destruct (IsCtl hdr); [discriminate|].
    destruct (IsData hdr);
      [ destruct (IsQosData hdr && IsQosAmsdu hdr);
        [|destruct (IsGroup (addr1 hdr))]
      | destruct (IsFeedback hdr) ];
      injection Hstep as <-; (split; [assumption|]);
      try (eexists; split; [reflexivity|]; reflexivity).
    exists []. split; [symmetry; apply app_nil_r | reflexivity].
  - destruct (pending s) as [|n]; injection Hstep as <-.
    + split; [assumption|].
      exists []. split; [symmetry; apply app_nil_r | reflexivity].
    + split; [assumption|]. simpl. rewrite <- app_assoc.
      eexists. split; [reflexivity|]. reflexivity.
Qed.

(** X21.  Once [m_initialize] is set, by an enqueue or by a captured
    group frame, no event configures the lower layer any more: a node
    that captured its feedback destination before its first enqueue
    never calls [SetAlpha] or [SetEDR]. *)
Theorem no_configuration_once_initialized (evs : list event)
  (s s' : AdhocWifiMac) :
  m_initialize s = true ->
  run evs s = Done s' ->
  exists new, effects s' = effects s ++ new /\ filter configures new = [].
Proof.
  revert s. induction evs as [|e evs IH]; intros s Hini Hrun; simpl in Hrun.
  - injection Hrun as <-.
    exists []. split; [symmetry; apply app_nil_r | reflexivity].
  - destruct (step s e) as [s1|] eqn:Hstep; [|discriminate]. cbn [bind] in Hrun.
    destruct (step_no_configuration s s1 e Hini Hstep)
      as (Hini1 & new1 & Heff1 & Hnone1).
    destruct (IH s1 Hini1 Hrun) as (new & Heff & Hnone).
    exists (new1 ++ new). split.
    + rewrite Heff, Heff1, app_assoc. reflexivity.
    + rewrite filter_app, Hnone1, Hnone. reflexivity.
Qed.

Lemma step_single_chain (s s' : AdhocWifiMac) (e : event) :
  pending s = 0%nat \/ (pending s = 1%nat /\ m_initialize s = true) ->
  step s e = Done s' ->
  pending s' = 0%nat \/ (pending s' = 1%nat /\ m_initialize s' = true).
Proof.
  intros Hinv Hstep. destruct e as [packet to | packet hdr |]; simpl in Hstep.
  - pose proof (Enqueue_shape packet to s) as Hshape. cbv zeta in Hshape.
    rewrite Hshape in Hstep. injection Hstep as <-. cbn [pending m_initialize].
    destruct Hinv as [H0 | [H1 _]]; [left; exact H0 | right; split; [exact H1 | reflexivity]].
  - receive_cases Hstep s hdr;
      destruct Hinv as [H0 | [H1 Hi]]; try discriminate Hi; cbn;
      rewrite ?H0, ?H1;
      first [ left; reflexivity
            | right; split; [reflexivity | first [reflexivity | assumption]] ].
  - destruct (pending s) as [|n] eqn:Hp; injection Hstep as <-.
    + left. exact Hp.
    + destruct Hinv as [H0 | [H1 Hini]]; [discriminate|].
      right. cbn. injection H1 as ->. split; [reflexivity | exact Hini].
Qed.

(** X22.  A node never holds two feedback timers: from construction on,
    whatever the events, at most one [SendFeedback] is pending, and one
    is pending only while [m_initialize] is set. *)
Theorem single_feedback_timer (qos : bool) (self : Mac48Address)
  (manager : Sbra.SbraWifiManager) (rxSet rxGet : rxInfo)
  (evs : list event) (s' : AdhocWifiMac) :
  run evs (construct qos self manager rxSet rxGet) = Done s' ->
  (pending s' <= 1)%nat /\ (pending s' = 1%nat -> m_initialize s' = true).
Proof.
  intros Hrun.
  assert (Hinv : pending s' = 0%nat \/
                 (pending s' = 1%nat /\ m_initialize s' = true)).
  { revert Hrun.
    assert (Hstart : pending (construct qos self manager rxSet rxGet) = 0%nat \/
                     (pending (construct qos self manager rxSet rxGet) = 1%nat /\
                      m_initialize (construct qos self manager rxSet rxGet) = true))
      by (left; reflexivity).
    revert Hstart. generalize (construct qos self manager rxSet rxGet).
    induction evs as [|e evs IH]; intros s Hinv Hrun; simpl in Hrun.
    - injection Hrun as <-. exact Hinv.
    - destruct (step s e) as [s1|] eqn:Hstep; [|discriminate].
      cbn [bind] in Hrun.
      exact (IH s1 (step_single_chain s s1 e Hinv Hstep) Hrun). }
  destruct Hinv as [H0 | [H1 Hini]].
  - split; [lia | intros H1; congruence].
  - split; [lia | intros _; exact Hini].
Qed.

Lemma step_feedback_count (s s' : AdhocWifiMac) (e : event) :
  m_initialize s = true ->
  (1 <= pending s)%nat ->
  step s e = Done s' ->
  m_initialize s' = true /\
  (1 <= pending s')%nat /\
  exists new,
    effects s' = effects s ++ new /\
    List.length (feedback_destinations new) = (if is_timer e then 1 else 0)%nat.
Proof.
  intros Hini Hp Hstep. destruct e as [packet to | packet hdr |]; simpl in Hstep.
  - destruct (Enqueue_done packet to s) as (new & Heq & Hnew).
    rewrite Heq in Hstep. injection Hstep as <-. cbn.
    split; [reflexivity|]. split; [exact Hp|].
    exists new. split; [reflexivity|]. rewrite Hnew. reflexivity.
  - unfold Receive in Hstep. rewrite Hini in Hstep.
    destruct (IsCtl hdr); [discriminate|].
    destruct (IsData hdr);
      [ destruct (IsQosData hdr && IsQosAmsdu hdr);
        [|destruct (IsGroup (addr1 hdr))]
      | destruct (IsFeedback hdr) ];
      injection Hstep as <-; cbn;
      (split; [assumption|]); (split; [assumption|]);
      try (eexists; split; [reflexivity|]; reflexivity).
    exists []. split; [symmetry; apply app_nil_r | reflexivity].
  - destruct (pending s) as [|n]; [lia|]. injection Hstep as <-. cbn.
    split; [assumption|]. split; [lia|].
    rewrite <- app_assoc. eexists. split; [reflexivity|]. reflexivity.
Qed.

(** X23.  Once the feedback has started ([m_initialize] set and a
    [SendFeedback] pending), every firing of the timer queues exactly one
    feedback frame and nothing else does: over any events the number of
    feedback frames queued is the number of firings, and a next firing
    stays pending. *)
Theorem one_feedback_frame_per_timer (evs : list event)
  (s s' : AdhocWifiMac) :
  m_initialize s = true ->
  (1 <= pending s)%nat ->
  run evs s = Done s' ->
  (1 <= pending s')%nat /\
  exists new,
    effects s' = effects s ++ new /\
    List.length (feedback_destinations new)
    = List.length (filter is_timer evs).
Proof.
  revert s. induction evs as [|e evs IH]; intros s Hini Hp Hrun;
    simpl in Hrun.
  - injection Hrun as <-. split; [exact Hp|].
    exists []. split; [symmetry; apply app_nil_r | reflexivity].
  - destruct (step s e) as [s1|] eqn:Hstep; [|discriminate]. cbn [bind] in Hrun.
    destruct (step_feedback_count s s1 e Hini Hp Hstep)
      as (Hini1 & Hp1 & new1 & Heff1 & Hlen1).
    destruct (IH s1 Hini1 Hp1 Hrun) as (Hp' & new & Heff & Hlen).
    split; [exact Hp'|].
    exists (new1 ++ new). split.
    + rewrite Heff, Heff1, app_assoc. reflexivity.
    + rewrite feedback_destinations_app, length_app, Hlen1, Hlen. simpl.
      destruct (is_timer e); reflexivity.
Qed.

(** X25.  From one node to another: the frame [SendFeedback] queues is
    addressed to the destination captured and carries what [GetRxInfo]
    returned; when the codec gives back what it was given, a node that
    receives this frame queues nothing and its manager then holds that
    report for the sender if the sender had an entry, and the
    default-initialised [info] if this is its first report. *)
Theorem feedback_from_node_to_manager (sA sB : AdhocWifiMac) :
  (forall i, RemoveFeedbackHeader (feedback_packet i) = i) ->
  exists fb fbhdr sB',
    effects (SendFeedback sA)
    = effects sA ++ [DcaQueue fb fbhdr;
                     Schedule (m_feedbackPeriod (attributes sA))] /\
    addr1 fbhdr = m_srcAddress sA /\
    m_rxInfoGet (SendFeedback sA)
    = GetRxInfo (m_fbtype (attributes sA)) (m_percentile (attributes sA))
        (m_alpha (attributes sA)) (m_beta (attributes sA))
        (m_eta (attributes sA)) (m_delta (attributes sA))
        (m_rho (attributes sA)) /\
    Receive fb fbhdr sB = Done sB' /\
    effects sB' = effects sB /\
    Sbra.sample_of (address sA) (Sbra.m_infos (stationManager sB'))
    = Some (if Sbra.known (address sA) (Sbra.m_infos (stationManager sB))
            then m_rxInfoGet (SendFeedback sA) else stainfo_info).
Proof.
  intros Hcodec. eexists. eexists. eexists.
  split; [cbn; rewrite <- app_assoc; reflexivity|].
  split; [reflexivity|]. split; [reflexivity|].
  split; [reflexivity|]. split; [reflexivity|].
  cbn. rewrite Hcodec, Sbra.UpdateInfo_infos_sample, Z.eqb_refl. reflexivity.
Qed.

End Mac.

Arguments mkMac {Packet}.
Arguments attributes {Packet} _.
Arguments m_qosSupported {Packet} _.
Arguments address {Packet} _.
Arguments bssid {Packet} _.
Arguments m_initialize {Packet} _.
Arguments m_setMacLowValue {Packet} _.
Arguments m_srcAddress {Packet} _.
Arguments m_rxInfoSet {Packet} _.
Arguments m_rxInfoGet {Packet} _.
Arguments stationManager {Packet} _.
Arguments effects {Packet} _.
Arguments pending {Packet} _.
Arguments construct {Packet} _ _ _ _ _.
Arguments feedback_destinations {Packet} _.
Arguments AddSupportedMode {Packet} _ _.
Arguments RecordDisassociated {Packet} _.
Arguments LowSetAlpha {Packet} _.
Arguments LowSetEDR {Packet} _ _ _.
Arguments DcaQueue {Packet} _ _.
Arguments EdcaQueue {Packet} _ _ _.
Arguments ForwardUp {Packet} _ _ _.
Arguments DeaggregateAmsduAndForward {Packet} _ _.
Arguments RegularReceive {Packet} _ _.
Arguments Schedule {Packet} _.
Arguments EvEnqueue {Packet} _ _.
Arguments EvReceive {Packet} _ _.
Arguments EvTimer {Packet}.

(** *** The MAC on the fixture *)

Lemma Enqueue_invalid_tid_reverts_to_zero_witness :
  8 <= wrap 8 (Fixture.tid_of (Fixture.Data 8)) /\
  exists s' before hdr,
    Enqueue Fixture.packet Fixture.tid_of Fixture.ac_of Sbra.OfdmRates
      (Fixture.Data 8) Fixture.other
      (construct true Fixture.self (Sbra.Fixture.manager 0)
         Sbra.Fixture.blank Sbra.Fixture.blank)
    = Done s' /\
    effects s' = before ++ [EdcaQueue AC_BE (Fixture.Data 8) hdr] /\
    hdrType hdr = WIFI_MAC_QOSDATA /\ qosTid hdr = 0 /\
    addr1 hdr = Fixture.other.
Proof.
  split; [vm_compute; discriminate|].
  apply (Enqueue_invalid_tid_reverts_to_zero Fixture.packet Fixture.tid_of
           Fixture.ac_of Sbra.OfdmRates (Fixture.Data 8) Fixture.other
           (construct true Fixture.self (Sbra.Fixture.manager 0)
              Sbra.Fixture.blank Sbra.Fixture.blank)).
  - reflexivity.
  - vm_compute. discriminate.
Defined.

(** C6, as the claim has it, fails: a QoS-enabled enqueue of a packet of
    traffic identifier 8 does not stop at the assertion; it returns with
    the packet queued for best effort under identifier 0. *)
Lemma Enqueue_tid_8_does_not_abort :
  m_qosSupported
    (construct (Packet := Fixture.packet) true Fixture.self
       (Sbra.Fixture.manager 0) Sbra.Fixture.blank Sbra.Fixture.blank)
  = true /\
  wrap 8 (Fixture.tid_of (Fixture.Data 8)) = 8 /\
  Enqueue Fixture.packet Fixture.tid_of Fixture.ac_of Sbra.OfdmRates
    (Fixture.Data 8) Fixture.other
    (construct true Fixture.self (Sbra.Fixture.manager 0)
       Sbra.Fixture.blank Sbra.Fixture.blank)
  <> AssertFailed /\
  exists s',
    Enqueue Fixture.packet Fixture.tid_of Fixture.ac_of Sbra.OfdmRates
      (Fixture.Data 8) Fixture.other
      (construct true Fixture.self (Sbra.Fixture.manager 0)
         Sbra.Fixture.blank Sbra.Fixture.blank)
    = Done s' /\
    last (effects s') (Schedule 0)
    = EdcaQueue AC_BE (Fixture.Data 8)
        (mkHeader WIFI_MAC_QOSDATA Fixture.other Fixture.self Fixture.self
           false false NORMAL_ACK false false 0 0).
Proof.
  split; [reflexivity|]. split; [reflexivity|].
  split; [vm_compute; discriminate|].
  eexists. split; vm_compute; reflexivity.
Qed.

Lemma first_group_frame_fixes_feedback_destination_witness :
  exists s1,
    Receive Fixture.packet Fixture.is_group Fixture.rx_info Fixture.Feedback
      Fixture.report_of Sbra.Fixture.blank (Fixture.Data 0)
      (Fixture.group_data Fixture.sender)
      (construct true Fixture.self (Sbra.Fixture.manager 0)
         Sbra.Fixture.blank Sbra.Fixture.blank)
    = Done s1 /\
    m_srcAddress s1 = Fixture.sender /\
    feedback_destinations (effects s1) = [Fixture.sender] /\
    forall s2,
      run Fixture.packet Fixture.tid_of Fixture.ac_of Fixture.is_group
        Sbra.OfdmRates Fixture.rx_info Fixture.Feedback Fixture.report_of
        Sbra.Fixture.blank
        [EvReceive (Fixture.Data 0) (Fixture.group_data Fixture.other);
         EvTimer] s1
      = Done s2 ->
      m_srcAddress s2 = Fixture.sender.
Proof.
  destruct (first_group_frame_fixes_feedback_destination Fixture.packet
              Fixture.tid_of Fixture.ac_of Fixture.is_group Sbra.OfdmRates
              Fixture.rx_info Fixture.Feedback Fixture.report_of
              Sbra.Fixture.blank (Fixture.Data 0)
              (Fixture.group_data Fixture.sender)
              (construct true Fixture.self (Sbra.Fixture.manager 0)
                 Sbra.Fixture.blank Sbra.Fixture.blank)
              eq_refl eq_refl eq_refl eq_refl)
    as (s1 & fb & fbhdr & Hrun & Hsrc & _ & Heff & Hfb & Hto & _ & _ & Hlater).
  exists s1. split; [exact Hrun|]. split; [exact Hsrc|]. split.
  - rewrite Heff. simpl. rewrite Hfb, Hto. reflexivity.
  - intros s2 Hrun2. exact (proj1 (Hlater _ s2 Hrun2)).
Defined.

(** C5, as the claim has it, fails twice.  A first group-addressed data
    frame that is a QoS A-MSDU is handed to deaggregation: no destination
    is captured and no feedback is sent or scheduled.  And after an
    enqueue, which sets [m_initialize], the first group-addressed data
    frame is forwarded up only: the destination stays the all-zero
    address and no feedback is sent or scheduled. *)
Lemma first_group_frame_not_always_captured :
  (exists s1,
      run Fixture.packet Fixture.tid_of Fixture.ac_of Fixture.is_group
        Sbra.OfdmRates Fixture.rx_info Fixture.Feedback Fixture.report_of
        Sbra.Fixture.blank
        [EvReceive (Fixture.Data 0) (Fixture.group_amsdu Fixture.sender)]
        (construct true Fixture.self (Sbra.Fixture.manager 0)
           Sbra.Fixture.blank Sbra.Fixture.blank)
      = Done s1 /\
      IsData (Fixture.group_amsdu Fixture.sender) = true /\
      Fixture.is_group (addr1 (Fixture.group_amsdu Fixture.sender)) = true /\
      m_srcAddress s1 <> Fixture.sender /\
      feedback_destinations (effects s1) = [] /\
      pending s1 = 0%nat) /\
  (exists s2,
      run Fixture.packet Fixture.tid_of Fixture.ac_of Fixture.is_group
        Sbra.OfdmRates Fixture.rx_info Fixture.Feedback Fixture.report_of
        Sbra.Fixture.blank
        [EvEnqueue (Fixture.Data 0) Fixture.other;
         EvReceive (Fixture.Data 0) (Fixture.group_data Fixture.sender)]
        (construct false Fixture.self (Sbra.Fixture.manager 0)
           Sbra.Fixture.blank Sbra.Fixture.blank)
      = Done s2 /\
      IsData (Fixture.group_data Fixture.sender) = true /\
      Fixture.is_group (addr1 (Fixture.group_data Fixture.sender)) = true /\
      m_srcAddress s2 <> Fixture.sender /\
      feedback_destinations (effects s2) = [] /\
      pending s2 = 0%nat).
Proof.
  split; eexists;
    (split; [vm_compute; reflexivity|]);
    (split; [reflexivity|]); (split; [reflexivity|]);
    (split; [vm_compute; discriminate|]);
    split; reflexivity.
Qed.

(** *** Further runs of the MAC on the fixture *)

Lemma Receive_captures_only_first_group_frame_witness :
  IsCtl (Fixture.group_data Fixture.sender) = false /\
  exists s' new,
    Receive Fixture.packet Fixture.is_group Fixture.rx_info Fixture.Feedback
      Fixture.report_of Sbra.Fixture.blank (Fixture.Data 0)
      (Fixture.group_data Fixture.sender)
      (construct true Fixture.self (Sbra.Fixture.manager 0)
         Sbra.Fixture.blank Sbra.Fixture.blank)
    = Done s' /\
    effects s' = new /\
    m_srcAddress s' = Fixture.sender /\
    pending s' = 1%nat /\
    feedback_destinations new = [Fixture.sender].
Proof.
  split; [reflexivity|].
  destruct (Receive_captures_only_first_group_frame Fixture.packet
              Fixture.is_group Fixture.rx_info Fixture.Feedback
              Fixture.report_of Sbra.Fixture.blank (Fixture.Data 0)
              (Fixture.group_data Fixture.sender)
              (construct true Fixture.self (Sbra.Fixture.manager 0)
                 Sbra.Fixture.blank Sbra.Fixture.blank) eq_refl)
    as (s' & new & Hrun & Heff & Hsrc & _ & Hp & Hfb).
  exists s', new. split; [exact Hrun|]. split; [exact Heff|].
  split; [exact Hsrc|]. split; [exact Hp | exact Hfb].
Defined.

Lemma no_configuration_once_initialized_witness :
  exists s' new,
    run Fixture.packet Fixture.tid_of Fixture.ac_of Fixture.is_group
      Sbra.OfdmRates Fixture.rx_info Fixture.Feedback Fixture.report_of
      Sbra.Fixture.blank
      [EvEnqueue (Fixture.Data 0) Fixture.other; EvTimer]
      (mkMac default_attributes true Fixture.self Fixture.self true false
         Fixture.sender Sbra.Fixture.blank Sbra.Fixture.blank
         (Sbra.Fixture.manager 0) [] 1%nat)
    = Done s' /\
    effects s' = new /\
    filter (configures Fixture.packet) new = [].
Proof.
  eexists. eexists.
  assert (Hrun :
    run Fixture.packet Fixture.tid_of Fixture.ac_of Fixture.is_group
      Sbra.OfdmRates Fixture.rx_info Fixture.Feedback Fixture.report_of
      Sbra.Fixture.blank
      [EvEnqueue (Fixture.Data 0) Fixture.other; EvTimer]
      (mkMac default_attributes true Fixture.self Fixture.self true false
         Fixture.sender Sbra.Fixture.blank Sbra.Fixture.blank
         (Sbra.Fixture.manager 0) [] 1%nat)
    = Done ?[s']) by (vm_compute; reflexivity).
  split; [exact Hrun|].
  destruct (no_configuration_once_initialized Fixture.packet Fixture.tid_of
              Fixture.ac_of Fixture.is_group Sbra.OfdmRates Fixture.rx_info
              Fixture.Feedback Fixture.report_of Sbra.Fixture.blank
              _
              (mkMac default_attributes true Fixture.self Fixture.self true
                 false Fixture.sender Sbra.Fixture.blank Sbra.Fixture.blank
                 (Sbra.Fixture.manager 0) [] 1%nat)
              _ eq_refl Hrun)
    as (new & Heff & Hnone).
  split; [reflexivity|]. vm_compute. reflexivity.
Defined.

Lemma single_feedback_timer_witness :
  exists s',
    run Fixture.packet Fixture.tid_of Fixture.ac_of Fixture.is_group
      Sbra.OfdmRates Fixture.rx_info Fixture.Feedback Fixture.report_of
      Sbra.Fixture.blank
      [EvReceive (Fixture.Data 0) (Fixture.group_data Fixture.sender);
       EvReceive (Fixture.Data 0) (Fixture.group_data Fixture.other);
       EvTimer; EvTimer]
      (construct true Fixture.self (Sbra.Fixture.manager 0)
         Sbra.Fixture.blank Sbra.Fixture.blank)
    = Done s' /\
    (pending s' <= 1)%nat.
Proof.
  eexists.
  assert (Hrun :
    run Fixture.packet Fixture.tid_of Fixture.ac_of Fixture.is_group
      Sbra.OfdmRates Fixture.rx_info Fixture.Feedback Fixture.report_of
      Sbra.Fixture.blank
      [EvReceive (Fixture.Data 0) (Fixture.group_data Fixture.sender);
       EvReceive (Fixture.Data 0) (Fixture.group_data Fixture.other);
       EvTimer; EvTimer]
      (construct true Fixture.self (Sbra.Fixture.manager 0)
         Sbra.Fixture.blank Sbra.Fixture.blank)
    = Done ?[s']) by (vm_compute; reflexivity).
  split; [exact Hrun|].
  exact (proj1 (single_feedback_timer Fixture.packet Fixture.tid_of
                  Fixture.ac_of Fixture.is_group Sbra.OfdmRates
                  Fixture.rx_info Fixture.Feedback Fixture.report_of
                  Sbra.Fixture.blank true Fixture.self
                  (Sbra.Fixture.manager 0) Sbra.Fixture.blank
                  Sbra.Fixture.blank _ _ Hrun)).
Defined.

Lemma one_feedback_frame_per_timer_witness :
  exists s' new,
    run Fixture.packet Fixture.tid_of Fixture.ac_of Fixture.is_group
      Sbra.OfdmRates Fixture.rx_info Fixture.Feedback Fixture.report_of
      Sbra.Fixture.blank
      [EvTimer; EvEnqueue (Fixture.Data 0) Fixture.other; EvTimer]
      (mkMac default_attributes true Fixture.self Fixture.self true false
         Fixture.sender Sbra.Fixture.blank Sbra.Fixture.blank
         (Sbra.Fixture.manager 0) [] 1%nat)
    = Done s' /\
    effects s' = new /\
    feedback_destinations new = [Fixture.sender; Fixture.sender].
Proof.
  eexists. eexists.
  assert (Hrun :
    run Fixture.packet Fixture.tid_of Fixture.ac_of Fixture.is_group
      Sbra.OfdmRates Fixture.rx_info Fixture.Feedback Fixture.report_of
      Sbra.Fixture.blank
      [EvTimer; EvEnqueue (Fixture.Data 0) Fixture.other; EvTimer]
      (mkMac default_attributes true Fixture.self Fixture.self true false
         Fixture.sender Sbra.Fixture.blank Sbra.Fixture.blank
         (Sbra.Fixture.manager 0) [] 1%nat)
    = Done ?[s']) by (vm_compute; reflexivity).
  split; [exact Hrun|].
  destruct (one_feedback_frame_per_timer Fixture.packet Fixture.tid_of
              Fixture.ac_of Fixture.is_group Sbra.OfdmRates Fixture.rx_info
              Fixture.Feedback Fixture.report_of Sbra.Fixture.blank
              _
              (mkMac default_attributes true Fixture.self Fixture.self true
                 false Fixture.sender Sbra.Fixture.blank Sbra.Fixture.blank
                 (Sbra.Fixture.manager 0) [] 1%nat)
              _ eq_refl (le_n 1) Hrun)
    as (_ & new & Heff & _).
  split; [reflexivity|]. vm_compute. reflexivity.
Defined.

Lemma feedback_from_node_to_manager_witness :
  (forall i, Fixture.report_of (Fixture.Feedback i) = i) /\
  exists fb fbhdr sB',
    Receive Fixture.packet Fixture.is_group Fixture.rx_info Fixture.Feedback
      Fixture.report_of Sbra.Fixture.blank fb fbhdr
      (construct true Fixture.self (Sbra.Fixture.good_channel 0)
         Sbra.Fixture.blank Sbra.Fixture.blank)
    = Done sB' /\
    addr1 fbhdr = Fixture.self /\
    Sbra.sample_of Sbra.Fixture.peer (Sbra.m_infos (stationManager sB'))
    = Some (mkRxInfo 20 15 1 10).
Proof.
  assert (Hcodec : forall i, Fixture.report_of (Fixture.Feedback i) = i)
    by reflexivity.
  split; [exact Hcodec|].
  destruct (feedback_from_node_to_manager Fixture.packet Fixture.is_group
              Fixture.rx_info Fixture.Feedback Fixture.report_of
              Sbra.Fixture.blank
              (mkMac default_attributes true Sbra.Fixture.peer
                 Sbra.Fixture.peer true false Fixture.self
                 Sbra.Fixture.blank Sbra.Fixture.blank
                 (Sbra.Fixture.manager 0) [] 1%nat)
              (construct true Fixture.self (Sbra.Fixture.good_channel 0)
                 Sbra.Fixture.blank Sbra.Fixture.blank) Hcodec)
    as (fb & fbhdr & sB' & _ & Hto & Hget & Hrun & _ & Hsample).
  exists fb, fbhdr, sB'. split; [exact Hrun|]. split; [exact Hto|].
  cbn [address] in Hsample. rewrite Hsample, Hget. reflexivity.
Defined.

End Adhoc.
